(** * GetHooks: the desktop hook store (desktop_hook.c) and the snapshot diff

    A shallow embedding of [create_desktop_hook_store],
    [add_desktop_hook_item], [compare_hook] and [init_desktop_hook_store]
    of desktop_hook.c, and of the hook reconciliation that diff.h declares.

    Conventions of the embedding:
    - a kernel or process address is a [Z]; [NULL] is 0;
    - a NULL-terminated singly linked list is the list of its nodes in
      link order, and a pointer to one of its nodes is the node's position
      ([None] for NULL);
    - a function that can call exit(1), touch memory outside an array or
      loop returns a [result]; loops whose termination does not follow from
      the shape of the data take fuel. *)

From Stdlib Require Import ZArith String.
From stdpp Require Import base list sorting.

Local Open Scope Z_scope.

(** ** Data model *)

Definition ptr := Z.
Definition NULL : ptr := 0.

(** HEAD, the header every user object starts with. *)
Record HEAD := { h : Z; cLockObj : Z }.

(** HANDLEENTRY, one slot of the shared handle table ([aheList]). *)
Record HANDLEENTRY := {
  pHead : ptr;      (* kernel address of the object's HEAD *)
  pOwner : ptr;
  bType : Z;
  bFlags : Z;
  wUniq : Z
}.

(** HOOK, the object as it lies in the desktop heap. *)
Record HOOK := {
  Head : HEAD;
  pti : ptr;
  rpdesk1 : ptr;
  pSelf : ptr;
  phkNext : ptr;
  iHook : Z;
  offPfn : Z;
  flags : Z;
  ihmod : Z;
  ptiHooked : ptr;
  rpdesk2 : ptr
}.

(** struct hook: the handle entry, the HOOK copied from the heap, and the
    gui threads found for its owner, origin and target (pointers into the
    snapshot's gui array, NULL when no thread was found). *)
Record hook := {
  entry : HANDLEENTRY;
  object : HOOK;
  owner : ptr;
  origin : ptr;
  target : ptr
}.

(** struct desktop_item of the global desktop store. *)
Record desktop_item := {
  pwszDesktopName : string;
  pvDesktopBase : ptr;
  pvDesktopLimit : ptr;
  pvClientDelta : ptr
}.

(** struct desktop_hook_item.  The member [hook] of the C struct, the array
    of hook structs, is [hook_array] here (the name [hook] is the struct's);
    the member [next] is the node's successor in the list that holds it. *)
Record desktop_hook_item := {
  desktop : ptr;               (* struct desktop_item * *)
  hook_array : list hook;      (* struct hook *hook *)
  hook_max : Z;
  hook_count : Z
}.

(** struct desktop_hook_list. *)
Record desktop_hook_list := {
  head : list desktop_hook_item;
  tail : option nat;
  init_time : Z
}.

(** The part of struct snapshot that init_desktop_hook_store reads;
    [desktop_hooks] is the store that parent->desktop_hooks points to. *)
Record snapshot := {
  init_time_spi : Z;
  init_time_gui : Z;
  desktop_hooks : desktop_hook_list
}.

(** The global stores, G->prog, G->config and G->desktops.  [aheList]
    holds the first [*pcHandleEntries] entries of the handle table;
    [desktops_head] is the desktop store's list, every node with the
    address it lives at. *)
Record global := {
  prog_init_time : Z;
  dwMainThreadId : Z;
  aheList : list HANDLEENTRY;
  config_init_time : Z;
  desktops_init_time : Z;
  desktops_head : list (ptr * desktop_item)
}.

(** What the code asks of the operating system and of the snapshot's gui
    store: the calling thread, the clock, the memory of the desktop heaps
    read as a HOOK, and find_Win32ThreadInfo. *)
Record system := {
  GetCurrentThreadId : Z;
  GetSystemTimeAsFileTime : Z;
  read_HOOK : ptr -> HOOK;
  find_Win32ThreadInfo : ptr -> ptr
}.

(** Constants of the platform headers, which are not part of these two
    files: the handle type of a HOOK and the width of size_t. *)
Class Platform := {
  TYPE_HOOK : Z;
  size_t_bits : Z
}.

(** qsort of the C library over an array of [hook]: the result holds the
    same elements and is in ascending order for the comparison function,
    whenever that function orders any two elements one way or the other.
    The order of elements that compare equal is left open. *)
Class Qsort := {
  qsort : (hook -> hook -> Z) -> list hook -> list hook;
  qsort_Permutation : forall cmp l, qsort cmp l ≡ₚ l;
  qsort_Sorted : forall cmp l,
    (forall a b, cmp a b <= 0 \/ cmp b a <= 0) ->
    Sorted (fun a b => cmp a b <= 0) (qsort cmp l)
}.

(** ** Results *)

(** Why the process was ended: a FAIL_IF whose expression was true, or one
    of the three MSG_FATAL paths of init_desktop_hook_store, with what
    they print. *)
Inductive fatal :=
| failed (expr : string)
| Too_many_HOOK_objects (count max : Z)
| Duplicate_pHead (a b : hook)
| Invalid_pHead (a : hook).

(** [Ret a s]: the function returned [a] and left the memory [s];
    [Exit why s]: it called exit(1) with the memory as [s];
    [Undefined]: it accessed an array out of bounds or a pointer that
    points nowhere; [OutOfFuel]: a loop was still running. *)
Inductive result (S A : Type) :=
| Ret (a : A) (s : S)
| Exit (why : fatal) (s : S)
| Undefined
| OutOfFuel.
Arguments Ret {S A} a s.
Arguments Exit {S A} why s.
Arguments Undefined {S A}.
Arguments OutOfFuel {S A}.

Definition bind {S A B} (r : result S A) (k : A -> S -> result S B)
  : result S B :=
  match r with
  | Ret a s => k a s
  | Exit why s => Exit why s
  | Undefined => Undefined
  | OutOfFuel => OutOfFuel
  end.

Notation "'do' ( a , s ) <- r ; k" := (bind r (fun a s => k))
  (at level 10, a name, s name, r at level 100, k at level 200).

(** A call through a pointer that is known not to be NULL. *)
Definition pointee {S A} (r : result (option S) A) : result S A :=
  match r with
  | Ret a (Some s) => Ret a s
  | Exit why (Some s) => Exit why s
  | OutOfFuel => OutOfFuel
  | _ => Undefined
  end.

(** Modelled from the spec: FAIL_IF is a macro of util.h, which is not
    among the sources.  The spec has every violated precondition end the
    process after a diagnostic; so FAIL_IF( expr ) with a true [expr] ends
    the process, with the memory as it is, and goes on otherwise. *)
Definition FAIL_IF {S A} (expr : bool) (text : string) (s : S)
    (k : result S A) : result S A :=
  if expr then Exit (failed text) s else k.

(** [!p] for a pointer. *)
Definition is_NULL {A} (p : option A) : bool :=
  match p with None => true | Some _ => false end.

(** Run [r] on a part of the memory and put the part back with [wrap]. *)
Definition within {S T A} (wrap : S -> T) (r : result S A) : result T A :=
  match r with
  | Ret a s => Ret a (wrap s)
  | Exit why s => Exit why (wrap s)
  | Undefined => Undefined
  | OutOfFuel => OutOfFuel
  end.

(** [leaves P r]: if [r] returned or ended the process, the memory it left
    satisfies [P]. *)
Definition leaves {S A} (P : S -> Prop) (r : result S A) : Prop :=
  match r with
  | Ret _ s | Exit _ s => P s
  | Undefined | OutOfFuel => True
  end.

(** ** Field updates *)

Definition set_hook_count (n : Z) (it : desktop_hook_item) :=
  {| desktop := desktop it; hook_array := hook_array it;
     hook_max := hook_max it; hook_count := n |}.

Definition set_hook_array (a : list hook) (it : desktop_hook_item) :=
  {| desktop := desktop it; hook_array := a;
     hook_max := hook_max it; hook_count := hook_count it |}.

Definition set_head (l : list desktop_hook_item) (s : desktop_hook_list) :=
  {| head := l; tail := tail s; init_time := init_time s |}.

Definition set_init_time (t : Z) (s : desktop_hook_list) :=
  {| head := head s; tail := tail s; init_time := t |}.

Definition set_desktop_hooks (p : snapshot) (s : desktop_hook_list) :=
  {| init_time_spi := init_time_spi p; init_time_gui := init_time_gui p;
     desktop_hooks := s |}.

(** [same_frame s s']: the store keeps its time stamp, its tail and the
    number of its items from [s] to [s']. *)
Definition same_frame (s s' : desktop_hook_list) : Prop :=
  init_time s' = init_time s /\ tail s' = tail s
  /\ length (head s') = length (head s).

(** ** must_calloc *)

Definition zero_HANDLEENTRY : HANDLEENTRY :=
  {| pHead := NULL; pOwner := NULL; bType := 0; bFlags := 0; wUniq := 0 |}.

Definition zero_HOOK : HOOK :=
  {| Head := {| h := 0; cLockObj := 0 |}; pti := NULL; rpdesk1 := NULL;
     pSelf := NULL; phkNext := NULL; iHook := 0; offPfn := 0; flags := 0;
     ihmod := 0; ptiHooked := NULL; rpdesk2 := NULL |}.

Definition zero_hook : hook :=
  {| entry := zero_HANDLEENTRY; object := zero_HOOK;
     owner := NULL; origin := NULL; target := NULL |}.

(** Modelled from the spec: must_calloc is a function of util.h, which is
    not among the sources; the spec has the allocation end the process when
    memory cannot be obtained.  Here the memory is there:
    must_calloc( n, sizeof( struct hook ) ) is [n] zeroed hook structs. *)
Definition must_calloc_hooks (n : Z) : list hook := repeat zero_hook (Z.to_nat n).

(** ** create_desktop_hook_store

    [out] is NULL ([None]), or points to a pointer that is NULL
    ([Some None]) or already points to a store. *)
Definition create_desktop_hook_store (out : option (option desktop_hook_list))
  : result (option (option desktop_hook_list)) unit :=
  FAIL_IF (is_NULL out) "!out" out $
  match out with
  | None => Undefined
  | Some out' =>
      FAIL_IF (negb (is_NULL out')) "*out" out $
      (* desktop_hooks = must_calloc( 1, sizeof( *desktop_hooks ) ) *)
      let desktop_hooks := {| head := []; tail := None; init_time := 0 |} in
      Ret tt (Some (Some desktop_hooks))
  end.

(** ** add_desktop_hook_item *)

(** A pointer to a desktop_hook_item, as add_desktop_hook_item returns it:
    a node of the store's list, or a block that must_calloc has just
    handed out and that no list holds. *)
Inductive item_ptr :=
| node (n : nat)
| fresh (it : desktop_hook_item).

(** for( item = store->head; item; item = item->next )
      if( item->desktop == desktop ) return item;
    [n] is the position of the first node of [l]. *)
Fixpoint find_desktop_hook_item (l : list desktop_hook_item) (desktop' : ptr)
    (n : nat) : option nat :=
  match l with
  | [] => None
  | item :: next =>
      if desktop item =? desktop' then Some n
      else find_desktop_hook_item next desktop' (S n)
  end.

Definition add_desktop_hook_item (store : option desktop_hook_list)
    (desktop' : ptr) : result (option desktop_hook_list) item_ptr :=
  FAIL_IF (is_NULL store) "!store" store $
  FAIL_IF (desktop' =? NULL) "!desktop" store $
  match store with
  | None => Undefined
  | Some s =>
      match find_desktop_hook_item (head s) desktop' 0 with
      | Some n => Ret (node n) store
      | None =>
          (* item = must_calloc( 1, sizeof( *item ) ) *)
          let item := {| desktop := desktop';
                         hook_max := 65535;
                         hook_array := must_calloc_hooks 65535;
                         hook_count := 0 |} in
          Ret (fresh item) store
      end
  end.

(** ** compare_hook *)

Definition compare_hook (a b : hook) : Z :=
  if pHead (entry a) <? pHead (entry b) then -1
  else if pHead (entry a) >? pHead (entry b) then 1
  else 0.

(** ** init_desktop_hook_store *)

(** The desktop_item a pointer of the desktop store points to. *)
Fixpoint desktop_at (l : list (ptr * desktop_item)) (p : ptr)
  : option desktop_item :=
  match l with
  | [] => None
  | (a, d) :: next => if a =? p then Some d else desktop_at next p
  end.

(** [store->head] as a node pointer. *)
Definition head_ptr (store : desktop_hook_list) : option nat :=
  match head store with [] => None | _ :: _ => Some 0%nat end.

(** [item->next] as a node pointer. *)
Definition next_ptr (store : desktop_hook_list) (n : nat) : option nat :=
  match head store !! S n with None => None | Some _ => Some (S n) end.

(** hook_count is an unsigned int. *)
Definition uint_incr (n : Z) : Z := (n + 1) mod 2 ^ 32.

(** The first hook_count elements of the array of an item, which are its
    valid records; the key of a record, entry.pHead; the keys of an item. *)
Definition records (it : desktop_hook_item) : list hook :=
  take (Z.to_nat (hook_count it)) (hook_array it).

Definition key (x : hook) : Z := pHead (entry x).

Definition keys (it : desktop_hook_item) : list Z := map key (records it).

(** Lines 283 to 298 on an item: hook[ hook_count ] is filled with the
    record [x], and hook_count is incremented. *)
Definition appended (it : desktop_hook_item) (x : hook) : desktop_hook_item :=
  set_hook_count (uint_incr (hook_count it))
    (set_hook_array (<[Z.to_nat (hook_count it) := x]> (hook_array it)) it).

(** The walk over the sorted array, lines 321 to 348:
    for( i = 1; i < item->hook_count; ++i ) with a = hook[ i - 1 ] and
    b = hook[ i ].  [l] is what is left of the first hook_count elements
    from a on; the answer is the fatal path taken, if any. *)
Fixpoint check_pHead (l : list hook) : option fatal :=
  match l with
  | a :: (b :: _) as rest =>
      if pHead (entry a) =? pHead (entry b) then Some (Duplicate_pHead a b)
      else if pHead (entry a) =? NULL then Some (Invalid_pHead a)
      else if pHead (entry b) =? NULL then Some (Invalid_pHead b)
      else check_pHead rest
  | _ => None
  end.

Section Refresh.
Context `{Platform} `{Qsort}.
Variable G : global.
Variable os : system.

(** Lines 245 and 246.  The source passes [store->desktop_hooks] as the
    first argument; struct desktop_hook_list is only ever used with
    head, tail and init_time, and the argument is read as [store]. *)
Fixpoint add_desktops (current : list (ptr * desktop_item))
    (store : desktop_hook_list) : result desktop_hook_list unit :=
  match current with
  | [] => Ret tt store
  | (addr, _) :: next =>
      do (_, store) <- pointee (add_desktop_hook_item (Some store) addr);
      add_desktops next store
  end.

(** Lines 253 and 254. *)
Definition soft_reset (store : desktop_hook_list) : desktop_hook_list :=
  set_head (map (set_hook_count 0) (head store)) store.

(** Lines 285 to 296: the hook struct for a handle entry on the desktop
    [d]: the entry, the HOOK read at pHead - pvClientDelta (a subtraction
    of size_t), and the gui threads of owner, origin and target. *)
Definition copy_hook (d : desktop_item) (entry' : HANDLEENTRY) : hook :=
  let object' :=
    read_HOOK os ((pHead entry' - pvClientDelta d) mod 2 ^ size_t_bits) in
  {| entry := entry';
     object := object';
     owner := find_Win32ThreadInfo os (pOwner entry');
     origin := find_Win32ThreadInfo os (pti object');
     target := find_Win32ThreadInfo os (ptiHooked object') |}.

(** Whether the HEAD of a handle entry lies in the heap of [d], lines 274
    and 275. *)
Definition on_desktop (d : desktop_item) (entry' : HANDLEENTRY) : bool :=
  (pvDesktopBase d <=? pHead entry') && (pHead entry' <? pvDesktopLimit d).

(** Lines 272 to 278:
    for( item = store->head; item; item->next ) if( in range ) break;
    The third expression reads item->next and drops it: [item] is the
    same node in the next round. *)
Fixpoint find_desktop (fuel : nat) (store : desktop_hook_list)
    (entry' : HANDLEENTRY) (item : option nat)
  : result desktop_hook_list (option nat) :=
  match fuel with
  | O => OutOfFuel
  | S fuel =>
      match item with
      | None => Ret None store
      | Some n =>
          match head store !! n with
          | None => Undefined
          | Some it =>
              match desktop_at (desktops_head G) (desktop it) with
              | None => Undefined
              | Some d =>
                  if on_desktop d entry' then Ret item store
                  else
                    let _ := next_ptr store n in
                    find_desktop fuel store entry' item
              end
          end
      end
  end.

(** Lines 283 to 305: fill hook[ hook_count ], count it, and end the
    process when the count has reached hook_max.  An index outside the
    array is undefined. *)
Definition record_hook (store : desktop_hook_list) (n : nat)
    (entry' : HANDLEENTRY) : result desktop_hook_list unit :=
  match head store !! n with
  | None => Undefined
  | Some it =>
      match desktop_at (desktops_head G) (desktop it) with
      | None => Undefined
      | Some d =>
          if (length (hook_array it) <=? Z.to_nat (hook_count it))%nat
          then Undefined
          else
            let it := appended it (copy_hook d entry') in
            let store := set_head (<[n := it]> (head store)) store in
            if hook_count it >=? hook_max it
            then Exit (Too_many_HOOK_objects (hook_count it) (hook_max it))
                      store
            else Ret tt store
      end
  end.

(** Lines 260 to 306, the loop over the handle entries. *)
Fixpoint record_hooks (fuel : nat) (entries : list HANDLEENTRY)
    (store : desktop_hook_list) : result desktop_hook_list unit :=
  match entries with
  | [] => Ret tt store
  | entry' :: entries =>
      if negb (bType entry' =? TYPE_HOOK) then
        record_hooks fuel entries store
      else
        do (item, store) <- find_desktop fuel store entry' (head_ptr store);
        match item with
        | None => record_hooks fuel entries store
        | Some n =>
            do (_, store) <- record_hook store n entry';
            record_hooks fuel entries store
        end
  end.

(** Lines 313 to 318 for one item: qsort over the first hook_count
    elements of its array. *)
Definition sort_item (it : desktop_hook_item) : desktop_hook_item :=
  let n := Z.to_nat (hook_count it) in
  set_hook_array (qsort compare_hook (records it)
                  ++ drop n (hook_array it)) it.

(** Lines 310 to 349: for( item = store->head; item; item->next ).
    As above the item is never advanced. *)
Fixpoint sort_hooks (fuel : nat) (store : desktop_hook_list)
    (item : option nat) : result desktop_hook_list unit :=
  match fuel with
  | O => OutOfFuel
  | S fuel =>
      match item with
      | None => Ret tt store
      | Some n =>
          match head store !! n with
          | None => Undefined
          | Some it =>
              let it := sort_item it in
              let store := set_head (<[n := it]> (head store)) store in
              match check_pHead (records it) with
              | Some why => Exit why store
              | None =>
                  let _ := next_ptr store n in
                  sort_hooks fuel store item
              end
          end
      end
  end.

(** Lines 240 to 255: make the list of desktops, or reuse it. *)
Definition first_phase (store : desktop_hook_list)
  : result desktop_hook_list unit :=
  match head store with
  | [] => add_desktops (desktops_head G) store
  | _ :: _ => Ret tt (soft_reset store)
  end.

(** Lines 234 to 354, on the store of the parent snapshot. *)
Definition refresh_store (fuel : nat) (store : desktop_hook_list)
  : result desktop_hook_list Z :=
  let store := set_init_time 0 store in
  do (_, store) <- first_phase store;
  (* SwitchToThread(); *)
  do (_, store) <- record_hooks fuel (aheList G) store;
  do (_, store) <- sort_hooks fuel store (head_ptr store);
  Ret 1 (set_init_time (GetSystemTimeAsFileTime os) store).

Definition init_desktop_hook_store (fuel : nat) (parent : option snapshot)
  : result (option snapshot) Z :=
  FAIL_IF (prog_init_time G =? 0) "!G->prog->init_time" parent $
  FAIL_IF (config_init_time G =? 0) "!G->config->init_time" parent $
  FAIL_IF (desktops_init_time G =? 0) "!G->desktops->init_time" parent $
  FAIL_IF (is_NULL parent) "!parent" parent $
  match parent with
  | None => Undefined
  | Some p =>
      FAIL_IF (init_time_spi p =? 0) "!parent->init_time_spi" parent $
      FAIL_IF (init_time_gui p =? 0) "!parent->init_time_gui" parent $
      FAIL_IF (negb (GetCurrentThreadId os =? dwMainThreadId G))
              "GetCurrentThreadId() != G->prog->dwMainThreadId" parent $
      within (fun s => Some (set_desktop_hooks p s))
             (refresh_store fuel (desktop_hooks p))
  end.

End Refresh.

(** The handle entries of HOOK objects among [entries], in their order. *)
Definition hooks_of `{Platform} (entries : list HANDLEENTRY) : list HANDLEENTRY :=
  filter (fun e => bType e = TYPE_HOOK) entries.

(** None of the seven FAIL_IF at the head of init_desktop_hook_store
    fires. *)
Definition preconditions (G : global) (os : system) (parent : option snapshot)
  : bool :=
  negb (prog_init_time G =? 0)
  && negb (config_init_time G =? 0)
  && negb (desktops_init_time G =? 0)
  && match parent with
     | None => false
     | Some p => negb (init_time_spi p =? 0) && negb (init_time_gui p =? 0)
     end
  && (GetCurrentThreadId os =? dwMainThreadId G).

(** The time stamp of the store of a snapshot that may be missing. *)
Definition store_init_time (m : option snapshot) : option Z :=
  match m with
  | None => None
  | Some p => Some (init_time (desktop_hooks p))
  end.

(** ** A platform and a qsort to run the code on *)

(** 32-bit Windows: TYPE_HOOK is 5 in the handle type table. *)
Definition win32_x86 : Platform := {| TYPE_HOOK := 5; size_t_bits := 32 |}.

(** Merge sort is one such qsort. *)
Definition merge_qsort_fun (cmp : hook -> hook -> Z) (l : list hook) : list hook :=
  @merge_sort hook (fun a b => cmp a b <= 0) (fun a b => Z_le_dec (cmp a b) 0) l.

Definition merge_qsort : Qsort :=
  {| qsort := merge_qsort_fun;
     qsort_Permutation := fun cmp l => merge_sort_Permutation _ l;
     qsort_Sorted := fun cmp l (Htotal : forall a b, cmp a b <= 0 \/ cmp b a <= 0) =>
       @Sorted_merge_sort hook (fun a b => cmp a b <= 0) _ Htotal l |}.

(** ** The snapshot diff

    diff.h declares [enum difftype] and the functions that compare two
    desktop hook stores; their bodies are in diff.c, which is not among
    the sources at hand. *)

Inductive difftype := HOOK_ADDED | HOOK_MODIFIED | HOOK_REMOVED.

(** enum difftype { HOOK_ADDED = 1, HOOK_MODIFIED, HOOK_REMOVED } *)
Definition difftype_value (t : difftype) : Z :=
  match t with HOOK_ADDED => 1 | HOOK_MODIFIED => 2 | HOOK_REMOVED => 3 end.

(** A change event {desktop, kind, before?, after?}. *)
Record change_event := {
  ev_desktop : ptr;
  kind : difftype;
  before : option hook;
  after : option hook
}.

(** Modelled from the spec: the comparison of the non-identity fields of
    two records with the same key (print_diff_hook of diff.c is missing):
    hook type index, callback offset, flags, module index, and the owner,
    origin and target found for the hook. *)
Definition same_fields (a b : hook) : bool :=
  (iHook (object a) =? iHook (object b))
  && (offPfn (object a) =? offPfn (object b))
  && (flags (object a) =? flags (object b))
  && (ihmod (object a) =? ihmod (object b))
  && (owner a =? owner b)
  && (origin a =? origin b)
  && (target a =? target b).

Definition added (d : ptr) (y : hook) : change_event :=
  {| ev_desktop := d; kind := HOOK_ADDED; before := None; after := Some y |}.

Definition removed (d : ptr) (x : hook) : change_event :=
  {| ev_desktop := d; kind := HOOK_REMOVED; before := Some x; after := None |}.

Definition modified (d : ptr) (x y : hook) : change_event :=
  {| ev_desktop := d; kind := HOOK_MODIFIED; before := Some x; after := Some y |}.

(** Modelled from the spec: the sorted merge of the records of a paired
    desktop, A's in [a] and B's in [b] (the body of
    print_diff_desktop_hook_items is missing).  A key only in B is Added,
    a key only in A is Removed, a key in both is Modified when a compared
    field differs and gives nothing otherwise. *)
Fixpoint merge_hooks (d : ptr) (a : list hook) : list hook -> list change_event :=
  fix merge_b (b : list hook) : list change_event :=
    match a, b with
    | [], _ => map (added d) b
    | _, [] => map (removed d) a
    | x :: a', y :: b' =>
        if key x <? key y then removed d x :: merge_hooks d a' b
        else if key y <? key x then added d y :: merge_b b'
        else if same_fields x y then merge_hooks d a' b'
        else modified d x y :: merge_hooks d a' b'
    end.

Definition diff_desktop_hook_items (a b : desktop_hook_item)
  : list change_event :=
  merge_hooks (desktop b) (records a) (records b).

(** Modelled from the spec: the pairing of the desktops of two stores, by
    the desktop an item refers to: the item of [list1] for the desktop of
    [b], if there is one. *)
Definition paired (list1 : desktop_hook_list) (b : desktop_hook_item)
  : option desktop_hook_item :=
  match find_desktop_hook_item (head list1) (desktop b) 0 with
  | None => None
  | Some n => head list1 !! n
  end.

(** Modelled from the spec: Diff(A, B) (the body of
    print_diff_desktop_hook_lists is missing).  Both stores must be valid;
    the desktops are taken in the order of B, and a desktop that only one
    of the stores has gives nothing. *)
Definition diff_desktop_hook_lists (list1 list2 : desktop_hook_list)
  : result unit (list change_event) :=
  FAIL_IF (init_time list1 =? 0) "!list1->init_time" tt $
  FAIL_IF (init_time list2 =? 0) "!list2->init_time" tt $
  Ret (flat_map
         (fun b =>
            match paired list1 b with
            | None => []
            | Some a => diff_desktop_hook_items a b
            end)
         (head list2))
      tt.

(** The events of one desktop. *)
Definition of_desktop (d : ptr) (evs : list change_event) : list change_event :=
  filter (fun e => ev_desktop e = d) evs.

(** The key an event is about. *)
Definition event_key (e : change_event) : Z :=
  match after e, before e with
  | Some y, _ => key y
  | None, Some x => key x
  | None, None => 0
  end.

Definition about (k : Z) (evs : list change_event) : list change_event :=
  filter (fun e => event_key e = k) evs.

(** The record with key [k] among [l], if any. *)
Fixpoint find_key (k : Z) (l : list hook) : option hook :=
  match l with
  | [] => None
  | x :: l => if key x =? k then Some x else find_key k l
  end.

(** What the diff has to say about a key, from A's record and B's record
    with that key. *)
Definition classify (d : ptr) (x y : option hook) : list change_event :=
  match x, y with
  | None, None => []
  | None, Some y => [added d y]
  | Some x, None => [removed d x]
  | Some x, Some y => if same_fields x y then [] else [modified d x y]
  end.

(** A valid store: the time stamp is set, no two items are for the same
    desktop, and the records of every item are in strictly ascending order
    of their keys, none of them NULL. *)
Definition valid_store (s : desktop_hook_list) : Prop :=
  init_time s <> 0
  /\ NoDup (map desktop (head s))
  /\ Forall (fun it => StronglySorted Z.lt (keys it)
                       /\ Forall (fun k => k <> NULL) (keys it)) (head s).

(** ** Inputs to run the code on *)

Definition set_clock (t : Z) (os : system) : system :=
  {| GetCurrentThreadId := GetCurrentThreadId os;
     GetSystemTimeAsFileTime := t;
     read_HOOK := read_HOOK os;
     find_Win32ThreadInfo := find_Win32ThreadInfo os |}.

Definition set_thread (t : Z) (os : system) : system :=
  {| GetCurrentThreadId := t;
     GetSystemTimeAsFileTime := GetSystemTimeAsFileTime os;
     read_HOOK := read_HOOK os;
     find_Win32ThreadInfo := find_Win32ThreadInfo os |}.

Definition set_aheList (l : list HANDLEENTRY) (G : global) : global :=
  {| prog_init_time := prog_init_time G; dwMainThreadId := dwMainThreadId G;
     aheList := l; config_init_time := config_init_time G;
     desktops_init_time := desktops_init_time G;
     desktops_head := desktops_head G |}.

(** Two desktops, their heaps at [0x10000, 0x20000) and [0x30000, 0x40000),
    the descriptors at 0x500 and 0x600. *)
Definition desk_Default : desktop_item :=
  {| pwszDesktopName := "Default"; pvDesktopBase := 0x10000;
     pvDesktopLimit := 0x20000; pvClientDelta := 0x1000 |}.

Definition desk_Winlogon : desktop_item :=
  {| pwszDesktopName := "Winlogon"; pvDesktopBase := 0x30000;
     pvDesktopLimit := 0x40000; pvClientDelta := 0x1000 |}.

(** Initialized global stores, main thread 7, an empty handle table. *)
Definition G_two_desktops : global :=
  {| prog_init_time := 1; dwMainThreadId := 7; aheList := [];
     config_init_time := 1; desktops_init_time := 1;
     desktops_head := [(0x500, desk_Default); (0x600, desk_Winlogon)] |}.

(** The main thread at some time of day; a heap of zeroes and no gui
    thread to be found. *)
Definition os_main : system :=
  {| GetCurrentThreadId := 7;
     GetSystemTimeAsFileTime := 129500000000000000;
     read_HOOK := fun _ => zero_HOOK;
     find_Win32ThreadInfo := fun _ => NULL |}.

(** A handle entry of a HOOK whose HEAD is at [p]. *)
Definition hook_entry (p : ptr) : HANDLEENTRY :=
  {| pHead := p; pOwner := 0x700; bType := 5; bFlags := 0; wUniq := 1 |}.

(** The store as create_desktop_hook_store leaves it, in a snapshot whose
    spi and gui arrays are initialized. *)
Definition created_store : desktop_hook_list :=
  {| head := []; tail := None; init_time := 0 |}.

Definition new_snapshot : snapshot :=
  {| init_time_spi := 1; init_time_gui := 1; desktop_hooks := created_store |}.

(** An item as add_desktop_hook_item makes it for the desktop at [d]. *)
Definition new_item (d : ptr) : desktop_hook_item :=
  {| desktop := d; hook_array := must_calloc_hooks 65535;
     hook_max := 65535; hook_count := 0 |}.

(** A store that holds an item for the first desktop. *)
Definition store_Default : desktop_hook_list :=
  {| head := [new_item 0x500]; tail := None; init_time := 0 |}.

Definition snapshot_Default : snapshot :=
  {| init_time_spi := 1; init_time_gui := 1; desktop_hooks := store_Default |}.

(** A snapshot whose store holds an item for each of the two desktops. *)
Definition store_two_items : desktop_hook_list :=
  {| head := [new_item 0x500; new_item 0x600]; tail := None; init_time := 0 |}.

Definition snapshot_two_items : snapshot :=
  {| init_time_spi := 1; init_time_gui := 1; desktop_hooks := store_two_items |}.

(** A store whose item for the first desktop holds 65534 records. *)
Definition store_65534 : desktop_hook_list :=
  {| head := [set_hook_count 65534 (new_item 0x500)]; tail := None;
     init_time := 0 |}.

(** Handle tables: the same HOOK twice in the heap of Default; the same
    HOOK twice in the heap of Winlogon; one HOOK in no known heap. *)
Definition G_twice_Default : global :=
  set_aheList [hook_entry 0x10800; hook_entry 0x10800] G_two_desktops.

Definition G_twice_Winlogon : global :=
  set_aheList [hook_entry 0x30800; hook_entry 0x30800] G_two_desktops.

Definition G_elsewhere : global :=
  set_aheList [hook_entry 0x90000] G_two_desktops.

(** One HOOK in the heap of Winlogon. *)
Definition G_on_Winlogon : global :=
  set_aheList [hook_entry 0x30400] G_two_desktops.

(** A handle table of 65535 HOOKs, all in the heap of Default. *)
Definition G_full : global :=
  set_aheList (map (fun i => hook_entry (0x10000 + i)) (seqZ 0 65535))
    G_two_desktops.

(** A handle table of two HOOKs in the heap of Default. *)
Definition G_two_hooks : global :=
  set_aheList [hook_entry 0x10800; hook_entry 0x10400] G_two_desktops.

(** The global stores before the program store is initialized. *)
Definition G_uninitialized : global :=
  {| prog_init_time := 0; dwMainThreadId := 7; aheList := [];
     config_init_time := 1; desktops_init_time := 1;
     desktops_head := [(0x500, desk_Default); (0x600, desk_Winlogon)] |}.

(** The snapshot after a first refresh at the time of [os_main]. *)
Definition refreshed_snapshot : snapshot :=
  {| init_time_spi := 1; init_time_gui := 1;
     desktop_hooks := {| head := []; tail := None;
                         init_time := 129500000000000000 |} |}.

(** The snapshots of the scenarios of the diff: the desktop Default with
    hooks at 0x11000 (flags 4) and 0x12000 in A, and with hooks at 0x11000
    (flags 8) and 0x13000 in B. *)
Definition hook_at (p : ptr) (flags' : Z) : hook :=
  {| entry := hook_entry p;
     object := {| Head := {| h := 0; cLockObj := 0 |}; pti := NULL;
                  rpdesk1 := NULL; pSelf := p; phkNext := NULL; iHook := 2;
                  offPfn := 0x4000; flags := flags'; ihmod := 1;
                  ptiHooked := NULL; rpdesk2 := NULL |};
     owner := NULL; origin := NULL; target := NULL |}.

Definition item_A : desktop_hook_item :=
  {| desktop := 0x500;
     hook_array := [hook_at 0x11000 4; hook_at 0x12000 0; zero_hook; zero_hook];
     hook_max := 4; hook_count := 2 |}.

Definition item_B : desktop_hook_item :=
  {| desktop := 0x500;
     hook_array := [hook_at 0x11000 8; hook_at 0x13000 0; zero_hook; zero_hook];
     hook_max := 4; hook_count := 2 |}.

Definition store_A : desktop_hook_list :=
  {| head := [item_A]; tail := None; init_time := 129500000000000000 |}.

Definition store_B : desktop_hook_list :=
  {| head := [item_B]; tail := None; init_time := 129500000600000000 |}.

(** The store of scenario A in a snapshot whose spi and gui arrays are
    initialized: a store that a refresh is to reuse. *)
Definition snapshot_A : snapshot :=
  {| init_time_spi := 1; init_time_gui := 1; desktop_hooks := store_A |}.

(** ** free_desktop_hook_item and free_desktop_hook_store

    What the two functions hand to free(), in the order of the calls: the
    array of hook structs of the n-th item of the list, the n-th item, or
    the store itself. *)
Inductive block :=
| hook_block (n : nat)
| item_block (n : nat)
| list_block.

(** free_desktop_hook_item( in ): [in_] is NULL, or points to a pointer
    that is NULL or points to the n-th item.  The item's array is freed,
    then the item, and the pointer is set to NULL.  The answer is the
    pointer [in_] points to after the call, and the blocks freed. *)
Definition free_desktop_hook_item (in_ : option (option nat))
  : option (option nat) * list block :=
  match in_ with
  | None => (None, [])
  | Some None => (Some None, [])
  | Some (Some n) => (Some None, [hook_block n; item_block n])
  end.

(** Lines 585 to 590:
    for( current = head; current; current = p )
    { p = current->next; free_desktop_hook_item( &current ); }
    [l] is the list from [current] on, [n] the position of [current]. *)
Fixpoint free_items (l : list desktop_hook_item) (n : nat) : list block :=
  match l with
  | [] => []
  | _ :: p => (free_desktop_hook_item (Some (Some n))).2 ++ free_items p (S n)
  end.

(** free_desktop_hook_store( in ): the items, then the store, and the
    pointer is set to NULL.  The answer is the pointer [in_] points to
    after the call, and the blocks freed. *)
Definition free_desktop_hook_store (in_ : option (option desktop_hook_list))
  : option (option desktop_hook_list) * list block :=
  match in_ with
  | None => (None, [])
  | Some None => (Some None, [])
  | Some (Some s) =>
      let freed :=
        match head s with
        | [] => []
        | _ :: _ => free_items (head s) 0
        end in
      (Some None, freed ++ [list_block])
  end.

(** ** The print functions

    PRINT_SEP_BEGIN, PRINT_SEP_END, PRINT_DBLSEP_BEGIN, PRINT_DBLSEP_END,
    PRINT_PTR and MSG_ERROR are macros of util.h, and print_init_time and
    print_gui functions of other files, none of them among the sources:
    every use of one of them, and every printf, is one piece of output
    that holds its arguments. *)
Inductive value :=
| number (z : Z)
| text (s : string)
| item_pointer (p : option nat).

Inductive output :=
| PRINT_SEP_BEGIN (objname : string)
| PRINT_SEP_END (objname : string)
| PRINT_DBLSEP_BEGIN (objname : string)
| PRINT_DBLSEP_END (objname : string)
| PRINT_PTR (expr : string) (p : value)
| MSG_ERROR (msg : string)
| printf (format : string) (args : list value)
| print_init_time (name : string) (t : Z)
| print_gui (gui : ptr).

Section Print.
Context `{Platform}.
Variable G : global.

(** The HEAD that entry->pHead points to, for print_HANDLEENTRY. *)
Variable read_HEAD : ptr -> HEAD.

Definition print_HANDLEENTRY (entry' : option HANDLEENTRY) : list output :=
  match entry' with
  | None => []
  | Some e =>
      [PRINT_SEP_BEGIN "HANDLEENTRY struct"]
      ++ (if negb (pHead e =? NULL)
          then [PRINT_PTR "entry->pHead->h" (number (h (read_HEAD (pHead e))));
                printf "entry->pHead->cLockObj: %lu\n"
                       [number (cLockObj (read_HEAD (pHead e)))]]
          else [])
      ++ [PRINT_PTR "entry->pOwner" (number (pOwner e))]
      ++ (if bType e =? TYPE_HOOK
          then [printf "entry->bType: TYPE_HOOK\n" []]
          else [printf "entry->bType: %u\n" [number (bType e)]])
      ++ [printf "entry->bFlags: 0x%02X\n" [number (bFlags e)];
          printf "entry->wUniq: %u\n" [number (wUniq e)];
          PRINT_SEP_END "HANDLEENTRY struct"]
  end.

Definition print_HOOK (object' : option HOOK) : list output :=
  match object' with
  | None => []
  | Some o =>
      [PRINT_SEP_BEGIN "HOOK struct";
       PRINT_PTR "object->Head.h" (number (h (Head o)));
       printf "object->Head.cLockObj: %lu\n" [number (cLockObj (Head o))];
       PRINT_PTR "object->pti" (number (pti o));
       PRINT_PTR "object->rpdesk1" (number (rpdesk1 o));
       PRINT_PTR "object->pSelf" (number (pSelf o));
       PRINT_PTR "object->phkNext" (number (phkNext o));
       printf "object->iHook: %d\n" [number (iHook o)];
       printf "object->offPfn: 0x%08lX\n" [number (offPfn o)];
       printf "object->flags: 0x%08lX\n" [number (flags o)];
       printf "object->ihmod: %d\n" [number (ihmod o)];
       PRINT_PTR "object->ptiHooked" (number (ptiHooked o));
       PRINT_PTR "object->rpdesk2" (number (rpdesk2 o));
       PRINT_SEP_END "HOOK struct"]
  end.

Definition print_hook (hook' : option hook) : list output :=
  match hook' with
  | None => []
  | Some x =>
      [PRINT_SEP_BEGIN "hook struct"]
      ++ print_HANDLEENTRY (Some (entry x))
      ++ print_HOOK (Some (object x))
      ++ [print_gui (owner x); print_gui (origin x); print_gui (target x);
          PRINT_SEP_END "hook struct"]
  end.

(** Lines 484 to 487: the name of the desktop, or an error for a NULL
    desktop; nothing defined for a pointer that points nowhere. *)
Definition print_desktop_name (it : desktop_hook_item) : option (list output) :=
  if negb (desktop it =? NULL) then
    match desktop_at (desktops_head G) (desktop it) with
    | Some d => Some [printf "item->desktop->pwszDesktopName: %ls\n"
                             [text (pwszDesktopName d)]]
    | None => None
    end
  else Some [MSG_ERROR "item->desktop == NULL"].

(** The rounds of the loop of lines 491 and 492, [todo] of them left: the
    argument of print_hook is item->hook, the array itself, that is a
    pointer to its first element, in every round. *)
Fixpoint print_hooks (hook' : option hook) (todo : nat) : list output :=
  match todo with
  | O => []
  | S todo => print_hook hook' ++ print_hooks hook' todo
  end.

(** Lines 491 and 492:
    for( i = 0; i < item->hook_count; ++i ) print_hook( item->hook );
    [i] is an int, which a hook_count above INT_MAX takes out of its
    range; with a hook_count above 0 the first element of the array is
    read. *)
Definition print_item_hooks (it : desktop_hook_item) : option (list output) :=
  if hook_count it <=? 0 then Some []
  else if 2 ^ 31 - 1 <? hook_count it then None
  else
    match hook_array it !! 0%nat with
    | Some x => Some (print_hooks (Some x) (Z.to_nat (hook_count it)))
    | None => None
    end.

Definition print_desktop_hook_item (item : option desktop_hook_item)
  : result unit (list output) :=
  match item with
  | None => Ret [] tt
  | Some it =>
      match print_desktop_name it, print_item_hooks it with
      | Some name, Some hooks =>
          Ret ([PRINT_SEP_BEGIN "Desktop Hook Item"]
               ++ name
               ++ [printf "item->hook_max: %u\n" [number (hook_max it)];
                   printf "item->hook_count: %u\n" [number (hook_count it)]]
               ++ hooks
               ++ [PRINT_SEP_END "Desktop Hook Item"]) tt
      | _, _ => Undefined
      end
  end.

(** Lines 522 to 526:
    for( item = store->head; item; item = item->next )
    { PRINT_PTR( item ); print_desktop_hook_item( item ); }
    [l] is the list from [item] on, [n] the position of [item]. *)
Fixpoint print_items (l : list desktop_hook_item) (n : nat)
  : result unit (list output) :=
  match l with
  | [] => Ret [] tt
  | it :: next =>
      do (item, _u) <- print_desktop_hook_item (Some it);
      do (items, _u) <- print_items next (S n);
      Ret (PRINT_PTR "item" (item_pointer (Some n)) :: item ++ items) tt
  end.

Definition print_desktop_hook_store (store : option desktop_hook_list)
  : result unit (list output) :=
  match store with
  | None => Ret [] tt
  | Some s =>
      do (items, _u) <- print_items (head s) 0;
      Ret ([PRINT_DBLSEP_BEGIN "Desktop Hook List Store";
            print_init_time "store->init_time" (init_time s);
            PRINT_PTR "store->head" (item_pointer (head_ptr s))]
           ++ items
           ++ [PRINT_PTR "store->tail" (item_pointer (tail s));
               PRINT_DBLSEP_END "Desktop Hook List Store"]) tt
  end.

End Print.

(** What is open in a piece of output: PRINT_SEP_BEGIN and
    PRINT_DBLSEP_BEGIN open a part, which the PRINT_SEP_END or
    PRINT_DBLSEP_END of the same name closes.  [nesting open out] is what
    is open after [out], the innermost part first, from what was open
    before; there is none when an end does not close the innermost part. *)
Fixpoint nesting (open : list output) (out : list output) : option (list output) :=
  match out with
  | [] => Some open
  | PRINT_SEP_BEGIN name :: out => nesting (PRINT_SEP_END name :: open) out
  | PRINT_DBLSEP_BEGIN name :: out => nesting (PRINT_DBLSEP_END name :: open) out
  | PRINT_SEP_END name :: out =>
      match open with
      | PRINT_SEP_END name' :: open =>
          if String.eqb name name' then nesting open out else None
      | _ => None
      end
  | PRINT_DBLSEP_END name :: out =>
      match open with
      | PRINT_DBLSEP_END name' :: open =>
          if String.eqb name name' then nesting open out else None
      | _ => None
      end
  | _ :: out => nesting open out
  end.

(** [closed out]: [out] closes every part that it opens, and no other. *)
Definition closed (out : list output) : Prop :=
  forall open, nesting open out = Some open.

(** Another qsort: merge sort of the array read backwards, which leaves
    elements that compare equal in another order. *)
Definition merge_qsort_backwards : Qsort :=
  {| qsort := fun cmp l => merge_qsort_fun cmp (reverse l);
     qsort_Permutation := fun cmp l =>
       transitivity (merge_sort_Permutation _ (reverse l)) (reverse_Permutation l);
     qsort_Sorted := fun cmp l (Htotal : forall a b, cmp a b <= 0 \/ cmp b a <= 0) =>
       @Sorted_merge_sort hook (fun a b => cmp a b <= 0) _ Htotal (reverse l) |}.

(** [only_head_written s s']: from [s] to [s'] the store keeps its time
    stamp and its tail, every item after the first is as it was, and the
    first keeps its desktop, its hook_max and the length of its array. *)
Definition only_head_written (s s' : desktop_hook_list) : Prop :=
  init_time s' = init_time s /\ tail s' = tail s
  /\ drop 1 (head s') = drop 1 (head s)
  /\ map desktop (head s') = map desktop (head s)
  /\ map hook_max (head s') = map hook_max (head s)
  /\ map (fun it => length (hook_array it)) (head s')
     = map (fun it => length (hook_array it)) (head s).

(** * Properties *)

(** ** What every call leaves of the memory *)

Lemma same_frame_refl s : same_frame s s.
Proof. by repeat split. Qed.

Lemma same_frame_trans s1 s2 s3 :
  same_frame s1 s2 -> same_frame s2 s3 -> same_frame s1 s3.
Proof. intros (?&?&?) (?&?&?). repeat split; congruence. Qed.

Lemma leaves_bind {S A B} (P : S -> Prop) (r : result S A)
    (k : A -> S -> result S B) :
  leaves P r ->
  (forall a s, r = Ret a s -> leaves P (k a s)) ->
  leaves P (bind r k).
Proof. destruct r; simpl; auto. Qed.

Lemma leaves_impl {S A} (P Q : S -> Prop) (r : result S A) :
  (forall s, P s -> Q s) -> leaves P r -> leaves Q r.
Proof. destruct r; simpl; auto. Qed.

Arguments add_desktop_hook_item : simpl never.

(** add_desktop_hook_item writes nothing through [store]. *)
Lemma add_desktop_hook_item_leaves store d :
  leaves (fun s => s = store) (add_desktop_hook_item store d).
Proof.
  unfold add_desktop_hook_item, FAIL_IF.
  destruct store as [s|]; [|done]. simpl.
  destruct (d =? NULL); [done|].
  by destruct (find_desktop_hook_item (head s) d 0).
Qed.

Lemma add_desktop_hook_item_returns s d :
  d <> NULL -> exists p, add_desktop_hook_item (Some s) d = Ret p (Some s).
Proof.
  intros Hd. unfold add_desktop_hook_item, FAIL_IF. simpl.
  destruct (Z.eqb_spec d NULL) as [|_]; [done|].
  destruct (find_desktop_hook_item (head s) d 0); eauto.
Qed.

Lemma add_desktops_leaves l s :
  leaves (fun s' => s' = s) (add_desktops l s).
Proof.
  induction l as [|[addr d] l IH]; simpl; [done|].
  pose proof (add_desktop_hook_item_leaves (Some s) addr) as Hadd.
  destruct (add_desktop_hook_item (Some s) addr) as [p [s'|]|why [s'|]| |];
    simpl in *; try done.
  - injection Hadd as ->. apply IH.
  - by injection Hadd as ->.
Qed.

(** With no NULL among the desktops' addresses, every call returns. *)
Lemma add_desktops_returns l s :
  Forall (fun n => n.1 <> NULL) l -> add_desktops l s = Ret tt s.
Proof.
  induction 1 as [|[addr d] l Hd _ IH]; simpl; [done|].
  destruct (add_desktop_hook_item_returns s addr Hd) as [p ->]. simpl. exact IH.
Qed.

Section RefreshFacts.
Context `{Platform} `{Qsort}.
Variable G : global.
Variable os : system.

Lemma find_desktop_leaves fuel s e item :
  match find_desktop G fuel s e item with
  | Ret p s' => s' = s /\ (p = item)
  | Exit _ _ => False
  | _ => True
  end.
Proof.
  induction fuel as [|fuel IH]; simpl; [done|].
  destruct item as [n|]; [|done].
  destruct (head s !! n) as [it|]; [|done].
  destruct (desktop_at (desktops_head G) (desktop it)) as [d|]; [|done].
  destruct (on_desktop d e); [done|]. exact IH.
Qed.

Lemma record_hook_leaves s n e :
  leaves (same_frame s) (record_hook G os s n e).
Proof.
  unfold record_hook.
  destruct (head s !! n) as [it|]; [|done].
  destruct (desktop_at (desktops_head G) (desktop it)) as [d|]; [|done].
  destruct (_ <=? _)%nat; [done|].
  match goal with |- context [if ?c then _ else _] => destruct c end;
    simpl; repeat split; simpl; by rewrite ?length_insert.
Qed.

Lemma record_hooks_leaves fuel entries s :
  leaves (same_frame s) (record_hooks G os fuel entries s).
Proof.
  revert s. induction entries as [|e entries IH]; intros s; simpl.
  { apply same_frame_refl. }
  destruct (negb _); [apply IH|].
  pose proof (find_desktop_leaves fuel s e (head_ptr s)) as Hfind.
  destruct (find_desktop G fuel s e (head_ptr s)) as [p s'| | |];
    simpl; try done.
  destruct Hfind as [-> ->].
  destruct (head_ptr s) as [n|]; [|apply IH].
  apply leaves_bind; [apply record_hook_leaves|].
  intros u s' Hs'.
  pose proof (record_hook_leaves s n e) as Hrec. rewrite Hs' in Hrec.
  eapply leaves_impl; [|apply IH].
  intros s''. by apply same_frame_trans.
Qed.

Lemma sort_hooks_leaves fuel s item :
  leaves (same_frame s) (sort_hooks fuel s item).
Proof.
  revert s. induction fuel as [|fuel IH]; intros s; simpl; [done|].
  destruct item as [n|]; simpl; [|apply same_frame_refl].
  destruct (head s !! n) as [it|]; [|done].
  set (s1 := set_head _ s).
  assert (same_frame s s1) as Hs1.
  { subst s1. repeat split; simpl; by rewrite ?length_insert. }
  destruct (check_pHead _); simpl; [done|].
  eapply leaves_impl; [|apply IH].
  intros s''. by apply same_frame_trans.
Qed.

(** The loop over store->head returns only when there is no head. *)
Lemma sort_hooks_returns fuel s item a s' :
  sort_hooks fuel s item = Ret a s' -> item = None /\ s' = s.
Proof.
  revert s. induction fuel as [|fuel IH]; intros s; simpl; [done|].
  destruct item as [n|]; [|by intros [= _ ->]].
  destruct (head s !! n) as [it|]; [|done].
  destruct (check_pHead _); [done|].
  intros Hret. by destruct (IH _ Hret).
Qed.

(** It never ends on a head that passes the walk. *)
Lemma sort_hooks_head_no_return fuel s n :
  match sort_hooks fuel s (Some n) with
  | Ret _ _ => False
  | _ => True
  end.
Proof.
  destruct (sort_hooks fuel s (Some n)) eqn:Hs; try done.
  by destruct (sort_hooks_returns _ _ _ _ _ Hs).
Qed.

End RefreshFacts.

(** ** add_desktop_hook_item *)

Arguments must_calloc_hooks : simpl never.

Lemma must_calloc_hooks_length n :
  0 <= n -> Z.of_nat (length (must_calloc_hooks n)) = n.
Proof. intros Hn. unfold must_calloc_hooks. rewrite repeat_length. lia. Qed.

Lemma must_calloc_hooks_zero n : Forall (eq zero_hook) (must_calloc_hooks n).
Proof.
  unfold must_calloc_hooks. apply Forall_forall.
  intros x Hx%list_elem_of_In. symmetry. by apply repeat_spec in Hx.
Qed.

Lemma find_desktop_hook_item_Some l d n0 n :
  find_desktop_hook_item l d n0 = Some n ->
  exists it, l !! (n - n0)%nat = Some it /\ desktop it = d /\ (n0 <= n)%nat
    /\ forall m it', (m < n - n0)%nat -> l !! m = Some it' -> desktop it' <> d.
Proof.
  revert n0. induction l as [|it l IH]; intros n0; simpl; [done|].
  destruct (Z.eqb_spec (desktop it) d) as [Heq|Hne].
  - intros [= <-]. exists it. rewrite Nat.sub_diag. repeat split; auto; lia.
  - intros Hfind. destruct (IH _ Hfind) as (it' & Hl & Hd & Hle & Hfirst).
    exists it'. replace (n - n0)%nat with (S (n - S n0)) by lia.
    repeat split; auto; [lia|].
    intros [|m] it'' Hm; simpl; [by intros [= <-]|].
    apply Hfirst. lia.
Qed.

Lemma find_desktop_hook_item_None l d n0 :
  find_desktop_hook_item l d n0 = None <->
  forall it, it ∈ l -> desktop it <> d.
Proof.
  revert n0. induction l as [|it l IH]; intros n0; simpl.
  - split; [|done]. intros _ it Hin. by apply elem_of_nil in Hin.
  - destruct (Z.eqb_spec (desktop it) d) as [Heq|Hne].
    + split; [done|]. intros Hall. destruct (Hall it); [left|done].
    + rewrite IH. split.
      * intros Hall it' [->|Hin]%elem_of_cons; auto.
      * intros Hall it' Hin. apply Hall. by right.
Qed.

(** C10.  add_desktop_hook_item for a desktop the store's list already has
    an item for returns that item (the first one in the list), and a new
    item with hook_max 65535, hook_count 0 and an array of 65535 zeroed
    hook structs exactly when the list has none; either way the list and
    its items are as before. *)
Theorem add_desktop_hook_item_existing_or_new (s : desktop_hook_list) (d : ptr) :
  d <> NULL ->
  ((exists it, it ∈ head s /\ desktop it = d) ->
   exists n it,
     add_desktop_hook_item (Some s) d = Ret (node n) (Some s)
     /\ head s !! n = Some it /\ desktop it = d
     /\ forall m it', (m < n)%nat -> head s !! m = Some it' -> desktop it' <> d)
  /\ ((forall it, it ∈ head s -> desktop it <> d) ->
      add_desktop_hook_item (Some s) d = Ret (fresh (new_item d)) (Some s))
  /\ (forall it' s',
        add_desktop_hook_item (Some s) d = Ret (fresh it') s' ->
        (forall it, it ∈ head s -> desktop it <> d)
        /\ s' = Some s
        /\ desktop it' = d /\ hook_max it' = 65535 /\ hook_count it' = 0
        /\ Z.of_nat (length (hook_array it')) = 65535
        /\ Forall (eq zero_hook) (hook_array it')).
Proof.
  intros Hd. unfold add_desktop_hook_item, FAIL_IF. simpl.
  destruct (Z.eqb_spec d NULL) as [|_]; [done|].
  destruct (find_desktop_hook_item (head s) d 0) as [n|] eqn:Hfind.
  - destruct (find_desktop_hook_item_Some _ _ _ _ Hfind)
      as (it & Hit & Hdesk & _ & Hfirst).
    rewrite Nat.sub_0_r in Hit, Hfirst.
    split; [|split].
    + intros _. by exists n, it.
    + intros Hnone. destruct (Hnone it); [|done].
      by eapply list_elem_of_lookup_2.
    + intros it' s' [=].
  - rewrite find_desktop_hook_item_None in Hfind.
    split; [|split].
    + intros (it & Hin & Hdesk). by destruct (Hfind it).
    + done.
    + intros it' s' [= <- <-].
      refine (conj Hfind (conj eq_refl (conj eq_refl (conj eq_refl
                (conj eq_refl (conj _ _)))))).
      * by apply must_calloc_hooks_length.
      * apply must_calloc_hooks_zero.
Qed.

Lemma add_desktop_hook_item_existing_or_new_witness :
  0x600 <> NULL
  /\ add_desktop_hook_item (Some store_Default) 0x600
     = Ret (fresh (new_item 0x600)) (Some store_Default)
  /\ add_desktop_hook_item (Some store_Default) 0x500
     = Ret (node 0) (Some store_Default).
Proof.
  split; [discriminate|]. split.
  - apply (add_desktop_hook_item_existing_or_new store_Default 0x600).
    + discriminate.
    + intros it Hin. apply list_elem_of_In in Hin.
      destruct Hin as [<-|[]]. discriminate.
  - reflexivity.
Defined.

(** ** refresh_store: when it returns, and what it leaves *)

Section RefreshResults.
Context `{Platform} `{Qsort}.
Variable G : global.
Variable os : system.

Lemma record_hooks_no_head fuel entries s :
  head s = [] -> record_hooks G os (S fuel) entries s = Ret tt s.
Proof.
  intros Hs. induction entries as [|e entries IH]; simpl; [done|].
  destruct (negb _); [done|].
  unfold head_ptr. rewrite Hs. exact IH.
Qed.

Lemma head_ptr_Some s : head s <> [] -> head_ptr s = Some 0%nat.
Proof. unfold head_ptr. by destruct (head s). Qed.

Lemma first_phase_leaves s : leaves (same_frame s) (first_phase G s).
Proof.
  unfold first_phase. destruct (head s) eqn:Hs.
  - eapply leaves_impl; [|apply add_desktops_leaves].
    intros ? ->. apply same_frame_refl.
  - simpl. repeat split. simpl. by rewrite length_map.
Qed.

Lemma refresh_store_phases fuel s :
  refresh_store G os fuel s
  = (do (_, store) <- first_phase G (set_init_time 0 s);
     do (_, store) <- record_hooks G os fuel (aheList G) store;
     do (_, store) <- sort_hooks fuel store (head_ptr store);
     Ret 1 (set_init_time (GetSystemTimeAsFileTime os) store)).
Proof. reflexivity. Qed.

(** refresh_store returns exactly on a store without items (some fuel and
    the returns of add_desktop_hook_item given), and then it has set the
    time stamp and nothing else. *)
Lemma refresh_store_returns fuel s r s' :
  refresh_store G os fuel s = Ret r s' <->
  head s = [] /\ fuel <> 0%nat
  /\ add_desktops (desktops_head G) (set_init_time 0 s)
     = Ret tt (set_init_time 0 s)
  /\ r = 1
  /\ s' = set_init_time (GetSystemTimeAsFileTime os) (set_init_time 0 s).
Proof.
  rewrite refresh_store_phases. unfold first_phase.
  change (head (set_init_time 0 s)) with (head s).
  destruct (head s) as [|it l] eqn:Hs.
  - pose proof (add_desktops_leaves (desktops_head G) (set_init_time 0 s)) as Ha.
    destruct (add_desktops _ _) as [[] s1| | |]; simpl in *;
      try (split; [done|by intros (_ & _ & ? & _)]).
    subst s1. destruct fuel as [|fuel].
    { split; [|by intros (_ & ? & _)].
      destruct (record_hooks _ _ _ _ _) as [[] s2| | |]; simpl; try done. }
    rewrite record_hooks_no_head by done. simpl.
    unfold head_ptr. simpl. rewrite Hs. split.
    + by intros [= <- <-].
    + by intros (_ & _ & _ & -> & ->).
  - split; [|by intros (? & _)]. simpl.
    pose proof (record_hooks_leaves G os fuel (aheList G)
                  (soft_reset (set_init_time 0 s))) as H2.
    destruct (record_hooks _ _ _ _ _) as [[] s2| | |]; simpl; try done.
    destruct H2 as (_ & _ & Hlen).
    assert (head s2 <> []) as Hs2.
    { intros E. rewrite E in Hlen. unfold soft_reset in Hlen. simpl in Hlen.
      rewrite Hs in Hlen. done. }
    rewrite head_ptr_Some by done.
    pose proof (sort_hooks_head_no_return fuel s2 0) as H3.
    by destruct (sort_hooks fuel s2 (Some 0%nat)).
Qed.

(** On a store without items it does return, given any fuel at all and a
    desktop store whose nodes are not at NULL. *)
Lemma refresh_store_no_head fuel s :
  head s = [] ->
  Forall (fun n => n.1 <> NULL) (desktops_head G) ->
  refresh_store G os (S fuel) s
  = Ret 1 (set_init_time (GetSystemTimeAsFileTime os) (set_init_time 0 s)).
Proof.
  intros Hs Hd. apply refresh_store_returns.
  by rewrite add_desktops_returns.
Qed.

(** When the process ends inside refresh_store the time stamp is 0. *)
Lemma refresh_store_exits fuel s why s' :
  refresh_store G os fuel s = Exit why s' -> init_time s' = 0.
Proof.
  rewrite refresh_store_phases.
  pose proof (first_phase_leaves (set_init_time 0 s)) as H1.
  destruct (first_phase _) as [[] s1|w1 s1| |]; simpl in *; try done.
  2:{ intros [= _ <-]. by destruct H1 as (-> & _). }
  pose proof (record_hooks_leaves G os fuel (aheList G) s1) as H2.
  destruct (record_hooks _ _ _ _ _) as [[] s2|w2 s2| |]; simpl in *; try done.
  2:{ intros [= _ <-]. destruct H1 as (E1 & _), H2 as (E2 & _).
      simpl in E1. congruence. }
  pose proof (sort_hooks_leaves fuel s2 (head_ptr s2)) as H3.
  destruct (sort_hooks _ _ _) as [[] s3|w3 s3| |]; simpl in *; try done.
  intros [= _ <-].
  destruct H1 as (E1 & _), H2 as (E2 & _), H3 as (E3 & _).
  simpl in E1. congruence.
Qed.

End RefreshResults.

(** ** init_desktop_hook_store *)

Section InitFacts.
Context `{Platform} `{Qsort}.
Variable G : global.
Variable os : system.

Lemma init_past_preconditions fuel p :
  preconditions G os (Some p) = true ->
  init_desktop_hook_store G os fuel (Some p)
  = within (fun s => Some (set_desktop_hooks p s))
           (refresh_store G os fuel (desktop_hooks p)).
Proof.
  unfold preconditions, init_desktop_hook_store, FAIL_IF. simpl.
  destruct (prog_init_time G =? 0); [done|].
  destruct (config_init_time G =? 0); [done|].
  destruct (desktops_init_time G =? 0); [done|].
  destruct (init_time_spi p =? 0); [done|].
  destruct (init_time_gui p =? 0); [done|].
  by destruct (GetCurrentThreadId os =? dwMainThreadId G).
Qed.

Lemma init_preconditions_fail fuel parent :
  preconditions G os parent = false ->
  exists expr,
    init_desktop_hook_store G os fuel parent = Exit (failed expr) parent.
Proof.
  unfold preconditions, init_desktop_hook_store, FAIL_IF.
  destruct (prog_init_time G =? 0); [eauto|].
  destruct (config_init_time G =? 0); [eauto|].
  destruct (desktops_init_time G =? 0); [eauto|].
  destruct parent as [p|]; [|eauto].
  destruct (init_time_spi p =? 0); [eauto|].
  destruct (init_time_gui p =? 0); [eauto|].
  destruct (GetCurrentThreadId os =? dwMainThreadId G); [done|eauto].
Qed.

Lemma init_returns fuel parent r m :
  init_desktop_hook_store G os fuel parent = Ret r m <->
  exists p,
    parent = Some p /\ preconditions G os parent = true
    /\ refresh_store G os fuel (desktop_hooks p)
       = Ret r (set_init_time (GetSystemTimeAsFileTime os)
                              (set_init_time 0 (desktop_hooks p)))
    /\ head (desktop_hooks p) = [] /\ r = 1
    /\ m = Some (set_desktop_hooks p
                   (set_init_time (GetSystemTimeAsFileTime os)
                                  (set_init_time 0 (desktop_hooks p)))).
Proof.
  destruct (preconditions G os parent) eqn:Hpre.
  - destruct parent as [p|].
    2:{ unfold preconditions in Hpre. rewrite !andb_false_r in Hpre.
        simpl in Hpre. done. }
    rewrite init_past_preconditions by done. split.
    + destruct (refresh_store _ _ _ _) as [r' s'| | |] eqn:Hr; simpl; try done.
      intros [= -> <-]. apply refresh_store_returns in Hr as Hr'.
      destruct Hr' as (Hs & _ & _ & -> & ->). by exists p.
    + intros (p' & [= <-] & _ & -> & _ & _ & ->). done.
  - destruct (init_preconditions_fail fuel parent Hpre) as [expr ->].
    split; [done|]. by intros (p & _ & ? & _).
Qed.

(** C9.  When the program, configuration or desktop store is not
    initialized, the parent snapshot is missing or its spi or gui array is
    not initialized, or the caller is not the main thread,
    init_desktop_hook_store ends the process on a FAIL_IF, whatever the
    fuel, and the memory is as it was passed in: no record, count or time
    stamp has been written. *)
Theorem init_desktop_hook_store_precondition_faults (parent : option snapshot) :
  prog_init_time G = 0 \/ config_init_time G = 0 \/ desktops_init_time G = 0
  \/ parent = None
  \/ (exists p, parent = Some p
                /\ (init_time_spi p = 0 \/ init_time_gui p = 0))
  \/ GetCurrentThreadId os <> dwMainThreadId G ->
  exists expr, forall fuel,
    init_desktop_hook_store G os fuel parent = Exit (failed expr) parent.
Proof.
  intros Hviolated.
  assert (preconditions G os parent = false) as Hpre.
  { unfold preconditions.
    destruct Hviolated as [E|[E|[E|[E|[(p & -> & [E|E])|E]]]]];
      rewrite ?E; simpl; rewrite ?andb_false_r; try done.
    - apply andb_false_intro2. by apply Z.eqb_neq. }
  destruct (init_preconditions_fail 0 parent Hpre) as [expr Hexit].
  exists expr. intros fuel. rewrite <- Hexit.
  unfold init_desktop_hook_store, preconditions, FAIL_IF in *.
  destruct (prog_init_time G =? 0); [done|].
  destruct (config_init_time G =? 0); [done|].
  destruct (desktops_init_time G =? 0); [done|].
  destruct parent as [p|]; [|done].
  destruct (init_time_spi p =? 0); [done|].
  destruct (init_time_gui p =? 0); [done|].
  by destruct (GetCurrentThreadId os =? dwMainThreadId G).
Qed.

(** C7, as the code has it.  A return of init_desktop_hook_store leaves the
    time of the system clock in init_time.  When the process ends instead,
    either a precondition failed and the memory, init_time included, is as
    it was passed in, or the store's init_time is 0. *)
Theorem init_time_after_refresh (fuel : nat) (parent : option snapshot) :
  (forall r m,
     init_desktop_hook_store G os fuel parent = Ret r m ->
     store_init_time m = Some (GetSystemTimeAsFileTime os))
  /\ (forall why m,
        init_desktop_hook_store G os fuel parent = Exit why m ->
        (preconditions G os parent = false /\ m = parent)
        \/ (preconditions G os parent = true
            /\ store_init_time m = Some 0)).
Proof.
  split.
  - intros r m Hret. apply init_returns in Hret.
    by destruct Hret as (p & _ & _ & _ & _ & _ & ->).
  - intros why m Hexit. destruct (preconditions G os parent) eqn:Hpre.
    + right. split; [done|]. destruct parent as [p|].
      2:{ unfold preconditions in Hpre. rewrite !andb_false_r in Hpre.
          simpl in Hpre. done. }
      rewrite init_past_preconditions in Hexit by done.
      destruct (refresh_store _ _ _ _) as [|why' s'| |] eqn:Hr; try done.
      simpl in Hexit. injection Hexit as _ <-. simpl.
      f_equal. by eapply refresh_store_exits.
    + left. split; [done|].
      destruct (init_preconditions_fail fuel parent Hpre) as [expr Hexit'].
      congruence.
Qed.

End InitFacts.



(** ** The code on the inputs above *)

Lemma init_desktop_hook_store_precondition_faults_witness :
  prog_init_time G_uninitialized = 0
  /\ exists expr, forall fuel,
       @init_desktop_hook_store win32_x86 merge_qsort G_uninitialized os_main
         fuel (Some new_snapshot)
       = Exit (failed expr) (Some new_snapshot).
Proof.
  split; [reflexivity|].
  apply (@init_desktop_hook_store_precondition_faults win32_x86 merge_qsort
           G_uninitialized os_main (Some new_snapshot)).
  left. reflexivity.
Defined.

(** C2, at a store just created and a desktop store with two desktops: the
    first call returns TRUE and the store still has no item, as
    add_desktop_hook_item never links the item it makes into the list. *)
Theorem first_refresh_makes_no_item (fuel : nat) :
  @init_desktop_hook_store win32_x86 merge_qsort G_two_desktops os_main
    (S fuel) (Some new_snapshot)
  = Ret 1 (Some refreshed_snapshot)
  /\ head (desktop_hooks refreshed_snapshot) = []
  /\ length (desktops_head G_two_desktops) = 2%nat
  /\ add_desktop_hook_item (Some created_store) 0x500
     = Ret (fresh (new_item 0x500)) (Some created_store).
Proof.
  split; [|done].
  rewrite init_past_preconditions by reflexivity.
  rewrite refresh_store_no_head; [reflexivity|reflexivity|].
  repeat constructor; discriminate.
Qed.

(** C7 as stated fails: after a refresh that returned, a call from another
    thread than the main thread ends the process on the FAIL_IF of line
    231, and the store's init_time is then the time of the first refresh,
    not 0. *)
Lemma init_time_kept_on_precondition_fault :
  @init_desktop_hook_store win32_x86 merge_qsort G_two_desktops os_main
    1 (Some new_snapshot) = Ret 1 (Some refreshed_snapshot)
  /\ @init_desktop_hook_store win32_x86 merge_qsort G_two_desktops
       (set_thread 8 os_main) 1 (Some refreshed_snapshot)
     = Exit (failed "GetCurrentThreadId() != G->prog->dwMainThreadId")
            (Some refreshed_snapshot)
  /\ store_init_time (Some refreshed_snapshot) = Some 129500000000000000
  /\ 129500000000000000 <> 0.
Proof. repeat split; try reflexivity. discriminate. Qed.

(** ** The loops that do not advance *)

Section Spinning.
Context `{Platform} `{Qsort}.
Variable G : global.
Variable os : system.

(** On a node whose desktop does not hold the address, the search goes
    round on that node for ever. *)
Lemma find_desktop_spins s e n it d :
  head s !! n = Some it ->
  desktop_at (desktops_head G) (desktop it) = Some d ->
  on_desktop d e = false ->
  forall fuel, find_desktop G fuel s e (Some n) = OutOfFuel.
Proof.
  intros Hit Hd Hout fuel. induction fuel as [|fuel IH]; simpl; [done|].
  by rewrite Hit, Hd, Hout.
Qed.

(** On a node whose desktop holds the address, it stops there. *)
Lemma find_desktop_found s e n it d fuel :
  head s !! n = Some it ->
  desktop_at (desktops_head G) (desktop it) = Some d ->
  on_desktop d e = true ->
  find_desktop G (S fuel) s e (Some n) = Ret (Some n) s.
Proof. intros Hit Hd Hin. simpl. by rewrite Hit, Hd, Hin. Qed.

End Spinning.

(** C3, at two inputs.  On a store just created, two handle entries for
    one HOOK in the heap of the desktop Default: the call returns TRUE
    with a time-stamped store (no item was linked, the hooks are passed
    over).  On a store with items for Default and Winlogon, two handle
    entries for one HOOK in the heap of Winlogon: the search for the
    desktop never leaves the item of Default, and the call neither
    returns nor ends the process. *)
Theorem duplicate_pHead_not_fatal :
  (forall fuel,
     @init_desktop_hook_store win32_x86 merge_qsort G_twice_Default os_main
       (S fuel) (Some new_snapshot)
     = Ret 1 (Some refreshed_snapshot))
  /\ (forall fuel,
        @init_desktop_hook_store win32_x86 merge_qsort G_twice_Winlogon os_main
          fuel (Some snapshot_two_items)
        = OutOfFuel).
Proof.
  split; intros fuel.
  - rewrite init_past_preconditions by reflexivity.
    rewrite refresh_store_no_head; [reflexivity|reflexivity|].
    repeat constructor; discriminate.
  - rewrite init_past_preconditions by reflexivity.
    rewrite refresh_store_phases.
    cbn [first_phase bind G_twice_Winlogon set_aheList aheList record_hooks
         desktop_hooks snapshot_two_items store_two_items set_init_time head].
    rewrite (find_desktop_spins G_twice_Winlogon _ _ 0
               (set_hook_count 0 (new_item 0x500)) desk_Default);
      reflexivity.
Qed.

(** C5, at two inputs.  On a store with an item for Default and a handle
    table with one HOOK whose HEAD is in no known heap, the hook is not
    passed over: the search for its desktop goes round on the first item,
    and the call neither returns nor ends the process.  On a store with
    items for Default and Winlogon and one HOOK in the heap of Winlogon,
    the search never gets to the item of Winlogon, and the same happens. *)
Theorem hook_elsewhere_not_skipped (fuel : nat) :
  @init_desktop_hook_store win32_x86 merge_qsort G_elsewhere os_main
    fuel (Some snapshot_Default)
  = OutOfFuel
  /\ @init_desktop_hook_store win32_x86 merge_qsort G_on_Winlogon os_main
       fuel (Some snapshot_two_items)
     = OutOfFuel.
Proof.
  split.
  - rewrite init_past_preconditions by reflexivity.
    rewrite refresh_store_phases.
    cbn [first_phase bind G_elsewhere set_aheList aheList record_hooks
         desktop_hooks snapshot_Default store_Default set_init_time head].
    rewrite (find_desktop_spins G_elsewhere _ _ 0
               (set_hook_count 0 (new_item 0x500)) desk_Default);
      reflexivity.
  - rewrite init_past_preconditions by reflexivity.
    rewrite refresh_store_phases.
    cbn [first_phase bind G_on_Winlogon set_aheList aheList record_hooks
         desktop_hooks snapshot_two_items store_two_items set_init_time head].
    rewrite (find_desktop_spins G_on_Winlogon _ _ 0
               (set_hook_count 0 (new_item 0x500)) desk_Default);
      reflexivity.
Qed.

(** ** The capacity of an item *)

Section Capacity.
Context `{Platform}.
Variable G : global.
Variable os : system.

Lemma record_hook_in_bounds s n it d e :
  head s !! n = Some it ->
  desktop_at (desktops_head G) (desktop it) = Some d ->
  0 <= hook_count it < Z.of_nat (length (hook_array it)) ->
  record_hook G os s n e
  = let it' := appended it (copy_hook os d e) in
    let s' := set_head (<[n := it']> (head s)) s in
    if uint_incr (hook_count it) >=? hook_max it
    then Exit (Too_many_HOOK_objects (uint_incr (hook_count it)) (hook_max it)) s'
    else Ret tt s'.
Proof.
  intros Hit Hd Hc. unfold record_hook. rewrite Hit, Hd.
  destruct (Nat.leb_spec (length (hook_array it)) (Z.to_nat (hook_count it)));
    [lia|done].
Qed.

Lemma uint_incr_small c : 0 <= c < 2 ^ 32 - 1 -> uint_incr c = c + 1.
Proof. intros Hc. unfold uint_incr. apply Z.mod_small. lia. Qed.

(** C6, as the code has it.  For an item with an array of 65535 hook
    structs and hook_max 65535, lines 283 to 305 write the record for the
    handle entry into hook[ hook_count ], in place (the array keeps its
    length and every other element), and add 1 to hook_count; the call
    goes on when the new count is below 65535 and ends the process with
    "Too many HOOK objects!" when the new count is 65535. *)
Theorem record_hook_capacity (s : desktop_hook_list) (n : nat)
    (it : desktop_hook_item) (d : desktop_item) (e : HANDLEENTRY) :
  head s !! n = Some it ->
  desktop_at (desktops_head G) (desktop it) = Some d ->
  hook_max it = 65535 ->
  Z.of_nat (length (hook_array it)) = 65535 ->
  0 <= hook_count it < 65535 ->
  exists it',
    hook_array it'
    = <[Z.to_nat (hook_count it) := copy_hook os d e]> (hook_array it)
    /\ length (hook_array it') = length (hook_array it)
    /\ hook_array it' !! Z.to_nat (hook_count it) = Some (copy_hook os d e)
    /\ hook_count it' = hook_count it + 1
    /\ hook_max it' = 65535 /\ desktop it' = desktop it
    /\ (hook_count it + 1 < 65535 ->
        record_hook G os s n e = Ret tt (set_head (<[n := it']> (head s)) s))
    /\ (hook_count it + 1 = 65535 ->
        record_hook G os s n e
        = Exit (Too_many_HOOK_objects 65535 65535)
               (set_head (<[n := it']> (head s)) s)).
Proof.
  intros Hit Hd Hmax Hlen Hc.
  exists (appended it (copy_hook os d e)).
  assert (uint_incr (hook_count it) = hook_count it + 1) as Hincr
    by (apply uint_incr_small; lia).
  split; [done|]. split; [apply length_insert|].
  split; [apply list_lookup_insert_eq; lia|].
  split; [done|]. split; [done|]. split; [done|].
  rewrite (record_hook_in_bounds s n it d e) by (done || lia).
  rewrite Hincr, Hmax. cbv zeta. split; intros Hnew.
  - destruct (Z.geb_spec (hook_count it + 1) 65535); [lia|done].
  - destruct (Z.geb_spec (hook_count it + 1) 65535); [|lia].
    by rewrite Hnew.
Qed.

End Capacity.

Lemma record_hook_capacity_witness :
  exists it',
    hook_count it' = 1 /\ hook_max it' = 65535
    /\ @record_hook win32_x86 G_two_desktops os_main store_Default 0
         (hook_entry 0x10800)
       = Ret tt (set_head (<[0%nat := it']> (head store_Default)) store_Default).
Proof.
  destruct (@record_hook_capacity win32_x86 G_two_desktops os_main
              store_Default 0 (new_item 0x500) desk_Default
              (hook_entry 0x10800))
    as (it' & _ & _ & _ & Hcount & Hmax & _ & Hret & _).
  - reflexivity.
  - reflexivity.
  - reflexivity.
  - vm_compute. reflexivity.
  - simpl. lia.
  - exists it'. split; [exact Hcount|]. split; [exact Hmax|].
    apply Hret. simpl. lia.
Defined.

(** With 65534 records in an item, the record of one more hook is written
    into the last element of the array, and the process is ended with
    "Too many HOOK objects!". *)
Lemma full_array_is_fatal :
  exists it',
    @record_hook win32_x86 G_two_desktops os_main store_65534 0
      (hook_entry 0x10800)
    = Exit (Too_many_HOOK_objects 65535 65535)
           (set_head [it'] store_65534)
    /\ hook_count it' = 65535
    /\ Z.of_nat (length (hook_array it')) = 65535
    /\ hook_array it' !! Z.to_nat 65534
       = Some (@copy_hook win32_x86 os_main desk_Default (hook_entry 0x10800)).
Proof.
  exists (appended (set_hook_count 65534 (new_item 0x500))
            (@copy_hook win32_x86 os_main desk_Default (hook_entry 0x10800))).
  assert (Z.of_nat (length (must_calloc_hooks 65535)) = 65535) as Hlen
    by by apply must_calloc_hooks_length.
  split; [|split; [|split]].
  - rewrite (record_hook_in_bounds G_two_desktops os_main store_65534 0
               (set_hook_count 65534 (new_item 0x500)) desk_Default);
      [reflexivity|reflexivity|reflexivity|].
    change (0 <= 65534 < Z.of_nat (length (must_calloc_hooks 65535))).
    rewrite Hlen. lia.
  - reflexivity.
  - change (Z.of_nat (length (<[Z.to_nat 65534 := @copy_hook win32_x86 os_main
                                 desk_Default (hook_entry 0x10800)]>
                            (must_calloc_hooks 65535))) = 65535).
    rewrite length_insert. exact Hlen.
  - apply list_lookup_insert_eq.
    change (Z.to_nat 65534 < length (must_calloc_hooks 65535))%nat. lia.
Qed.

(** ** The diff of two items *)

Lemma merge_hooks_nil_r d a : merge_hooks d a [] = map (removed d) a.
Proof. by destruct a. Qed.

Lemma merge_hooks_cons d x a y b :
  merge_hooks d (x :: a) (y :: b)
  = if key x <? key y then removed d x :: merge_hooks d a (y :: b)
    else if key y <? key x then added d y :: merge_hooks d (x :: a) b
    else if same_fields x y then merge_hooks d a b
    else modified d x y :: merge_hooks d a b.
Proof. reflexivity. Qed.

Lemma about_cons k e evs :
  about k (e :: evs)
  = if decide (event_key e = k) then e :: about k evs else about k evs.
Proof. unfold about. by rewrite filter_cons. Qed.

Lemma find_key_above k l :
  Forall (fun x => k < key x) l -> find_key k l = None.
Proof.
  induction 1 as [|x l Hx _ IH]; simpl; [done|].
  destruct (Z.eqb_spec (key x) k); [lia|done].
Qed.

Lemma sorted_keys_cons x l :
  StronglySorted Z.lt (map key (x :: l)) ->
  Forall (fun y => key x < key y) l /\ StronglySorted Z.lt (map key l).
Proof.
  simpl. intros [Hall Hl]%StronglySorted_cons. split; [|done].
  by rewrite Forall_map in Hall.
Qed.

Lemma about_added k d b :
  StronglySorted Z.lt (map key b) ->
  about k (map (added d) b) = classify d None (find_key k b).
Proof.
  induction b as [|y b IH]; [done|].
  intros [Hy Hb]%sorted_keys_cons. simpl. rewrite about_cons, IH by done.
  change (event_key (added d y)) with (key y).
  destruct (Z.eqb_spec (key y) k) as [<-|Hne].
  - rewrite decide_True by done. by rewrite find_key_above.
  - by rewrite decide_False.
Qed.

Lemma about_removed k d a :
  StronglySorted Z.lt (map key a) ->
  about k (map (removed d) a) = classify d (find_key k a) None.
Proof.
  induction a as [|x a IH]; [done|].
  intros [Hx Ha]%sorted_keys_cons. simpl. rewrite about_cons, IH by done.
  change (event_key (removed d x)) with (key x).
  destruct (Z.eqb_spec (key x) k) as [<-|Hne].
  - rewrite decide_True by done. by rewrite find_key_above.
  - by rewrite decide_False.
Qed.

(** The merge says about every key what [classify] says of the records
    with that key. *)
Lemma about_merge_hooks k d a b :
  StronglySorted Z.lt (map key a) ->
  StronglySorted Z.lt (map key b) ->
  about k (merge_hooks d a b) = classify d (find_key k a) (find_key k b).
Proof.
  revert b. induction a as [|x a IHa]; intros b Ha Hb.
  { destruct b; by apply about_added. }
  induction b as [|y b IHb].
  { rewrite merge_hooks_nil_r. by apply about_removed. }
  destruct (sorted_keys_cons _ _ Ha) as [Hx Ha'].
  destruct (sorted_keys_cons _ _ Hb) as [Hy Hb'].
  rewrite merge_hooks_cons.
  destruct (Z.ltb_spec (key x) (key y)) as [Hlt|Hge].
  - rewrite about_cons, IHa by done.
    change (event_key (removed d x)) with (key x).
    cbn [find_key]. destruct (Z.eqb_spec (key x) k) as [<-|Hne].
    + rewrite decide_True by done.
      rewrite find_key_above by done.
      destruct (Z.eqb_spec (key y) (key x)); [lia|].
      rewrite find_key_above; [done|].
      eapply Forall_impl; [exact Hy|]. simpl. lia.
    + by rewrite decide_False.
  - destruct (Z.ltb_spec (key y) (key x)) as [Hlt|Hge'].
    + rewrite about_cons, IHb by done.
      change (event_key (added d y)) with (key y).
      cbn [find_key]. destruct (Z.eqb_spec (key y) k) as [<-|Hne].
      * rewrite decide_True by done.
        destruct (Z.eqb_spec (key x) (key y)); [lia|].
        rewrite (find_key_above (key y) a), (find_key_above (key y) b);
          [done|done|].
        eapply Forall_impl; [exact Hx|]. simpl. lia.
      * by rewrite decide_False.
    + assert (key x = key y) as Hxy by lia.
      cbn [find_key]. rewrite <- Hxy.
      destruct (Z.eqb_spec (key x) k) as [<-|Hne].
      * assert (find_key (key x) a = None) as Ea by by apply find_key_above.
        assert (find_key (key x) b = None) as Eb.
        { apply find_key_above. by rewrite Hxy. }
        destruct (same_fields x y) eqn:Hsame.
        -- rewrite IHa, Ea, Eb by done. simpl. by rewrite Hsame.
        -- rewrite about_cons, IHa, Ea, Eb by done.
           change (event_key (modified d x y)) with (key y).
           rewrite decide_True by done. simpl. by rewrite Hsame.
      * destruct (same_fields x y).
        -- by rewrite IHa.
        -- rewrite about_cons, IHa by done.
           change (event_key (modified d x y)) with (key y).
           rewrite decide_False by lia. done.
Qed.

Lemma find_key_Some k l x :
  StronglySorted Z.lt (map key l) -> x ∈ l -> key x = k ->
  find_key k l = Some x.
Proof.
  induction l as [|z l IH]; intros Hl Hin Hk.
  { by apply elem_of_nil in Hin. }
  destruct (sorted_keys_cons _ _ Hl) as [Hz Hl'].
  simpl. apply elem_of_cons in Hin as [->|Hin].
  - by rewrite (proj2 (Z.eqb_eq _ _) Hk).
  - rewrite Forall_forall in Hz. specialize (Hz x Hin).
    destruct (Z.eqb_spec (key z) k); [lia|]. by apply IH.
Qed.

Lemma find_key_None k l : k ∉ map key l -> find_key k l = None.
Proof.
  induction l as [|z l IH]; simpl; [done|].
  intros Hk. apply not_elem_of_cons in Hk as [Hne Hk].
  destruct (Z.eqb_spec (key z) k); [done|]. by apply IH.
Qed.

Lemma merge_hooks_desktop d a b :
  Forall (fun e => ev_desktop e = d) (merge_hooks d a b).
Proof.
  revert b. induction a as [|x a IHa]; intros b.
  { destruct b; simpl; [constructor|].
    constructor; [done|]. apply Forall_map, Forall_true. done. }
  induction b as [|y b IHb].
  { rewrite merge_hooks_nil_r. apply Forall_map, Forall_true. done. }
  rewrite merge_hooks_cons.
  destruct (key x <? key y); [by constructor|].
  destruct (key y <? key x); [by constructor|].
  destruct (same_fields x y); [done|by constructor].
Qed.

Lemma of_desktop_all d evs :
  Forall (fun e => ev_desktop e = d) evs -> of_desktop d evs = evs.
Proof.
  unfold of_desktop. induction 1 as [|e evs He _ IH]; [done|].
  by rewrite filter_cons_True, IH.
Qed.

Lemma of_desktop_none d d' evs :
  d' <> d -> Forall (fun e => ev_desktop e = d') evs -> of_desktop d evs = [].
Proof.
  unfold of_desktop. intros Hne. induction 1 as [|e evs He _ IH]; [done|].
  rewrite filter_cons_False by congruence. exact IH.
Qed.

Lemma same_desktop_same_item (l : list desktop_hook_item) a a' :
  NoDup (map desktop l) -> a ∈ l -> a' ∈ l -> desktop a = desktop a' -> a = a'.
Proof.
  induction l as [|z l IH]; simpl; intros Hnodup Ha Ha' Hd.
  { by apply elem_of_nil in Ha. }
  apply NoDup_cons in Hnodup as [Hz Hnodup].
  apply elem_of_cons in Ha as [->|Ha]; apply elem_of_cons in Ha' as [->|Ha'].
  - done.
  - destruct Hz. rewrite Hd. by apply list_elem_of_fmap_2.
  - destruct Hz. rewrite <- Hd. by apply list_elem_of_fmap_2.
  - by apply IH.
Qed.

(** In a store with one item per desktop, the item paired with [b] is the
    item for the desktop of [b]. *)
Lemma paired_item A a b :
  NoDup (map desktop (head A)) -> a ∈ head A -> desktop a = desktop b ->
  paired A b = Some a.
Proof.
  intros Hnodup Ha Hd. unfold paired.
  destruct (find_desktop_hook_item (head A) (desktop b) 0) as [n|] eqn:Hfind.
  - destruct (find_desktop_hook_item_Some _ _ _ _ Hfind)
      as (a' & Ha' & Hd' & _ & _).
    rewrite Nat.sub_0_r in Ha'. rewrite Ha'. f_equal.
    apply (same_desktop_same_item (head A)); try done.
    + by eapply list_elem_of_lookup_2.
    + congruence.
  - rewrite find_desktop_hook_item_None in Hfind. by destruct (Hfind a).
Qed.

(** The events of a desktop in the diff of two stores are the events of
    the two items for that desktop. *)
Lemma of_desktop_diff A (l : list desktop_hook_item) a b :
  NoDup (map desktop l) -> b ∈ l -> paired A b = Some a ->
  of_desktop (desktop b)
    (flat_map (fun b => match paired A b with
                        | None => []
                        | Some a => diff_desktop_hook_items a b
                        end) l)
  = diff_desktop_hook_items a b.
Proof.
  intros Hnodup Hb Hpair.
  assert (forall b' : desktop_hook_item,
             Forall (fun e => ev_desktop e = desktop b')
               match paired A b' with
               | None => []
               | Some a => diff_desktop_hook_items a b'
               end) as Hev.
  { intros b'. destruct (paired A b'); [apply merge_hooks_desktop|constructor]. }
  assert (forall l' : list desktop_hook_item,
             desktop b ∉ map desktop l' ->
             of_desktop (desktop b)
               (flat_map (fun b => match paired A b with
                                   | None => []
                                   | Some a => diff_desktop_hook_items a b
                                   end) l') = []) as Hnone.
  { induction l' as [|b' l' IH]; [done|]. simpl. intros Hnotin.
    apply not_elem_of_cons in Hnotin as [Hne Hnotin].
    unfold of_desktop in *. rewrite filter_app, IH by done.
    fold (of_desktop (desktop b)
            match paired A b' with
            | None => []
            | Some a => diff_desktop_hook_items a b'
            end).
    by rewrite (of_desktop_none _ (desktop b')). }
  induction l as [|b' l IH]; [by apply elem_of_nil in Hb|].
  simpl in Hnodup. apply NoDup_cons in Hnodup as [Hb' Hnodup].
  simpl. unfold of_desktop. rewrite filter_app.
  fold (of_desktop (desktop b)
          match paired A b' with
          | None => []
          | Some a => diff_desktop_hook_items a b'
          end).
  fold (of_desktop (desktop b)
          (flat_map (fun b => match paired A b with
                              | None => []
                              | Some a => diff_desktop_hook_items a b
                              end) l)).
  apply elem_of_cons in Hb as [<-|Hb].
  - rewrite of_desktop_all by apply Hev. rewrite Hnone by done.
    by rewrite Hpair, app_nil_r.
  - rewrite (of_desktop_none _ (desktop b')), IH; [done..| |apply Hev].
    intros E. apply Hb'. rewrite E. by apply list_elem_of_fmap_2.
Qed.

(** C4.  For two valid stores A and B and a desktop that both have an
    item for, [a] in A and [b] in B, the diff of the stores is made, and
    its events for that desktop that are about a key are: one Added
    event with B's record when only B has the key, one Removed event with
    A's record when only A has it, one Modified event with A's record as
    before and B's as after when both have it and a compared field
    differs, and none when both have it with equal fields (or neither has
    it). *)
Theorem diff_classifies_each_key (A B : desktop_hook_list)
    (a b : desktop_hook_item) (k : Z) :
  valid_store A -> valid_store B ->
  a ∈ head A -> b ∈ head B -> desktop a = desktop b ->
  exists evs,
    diff_desktop_hook_lists A B = Ret evs tt
    /\ (forall y, y ∈ records b -> key y = k -> k ∉ keys a ->
          about k (of_desktop (desktop b) evs) = [added (desktop b) y])
    /\ (forall x, x ∈ records a -> key x = k -> k ∉ keys b ->
          about k (of_desktop (desktop b) evs) = [removed (desktop b) x])
    /\ (forall x y, x ∈ records a -> y ∈ records b ->
          key x = k -> key y = k ->
          about k (of_desktop (desktop b) evs)
          = if same_fields x y then [] else [modified (desktop b) x y])
    /\ (k ∉ keys a -> k ∉ keys b ->
        about k (of_desktop (desktop b) evs) = []).
Proof.
  intros (HtA & HdA & HA) (HtB & HdB & HB) Ha Hb Hd.
  rewrite Forall_forall in HA, HB.
  destruct (HA a Ha) as [Hsa _]. destruct (HB b Hb) as [Hsb _].
  eexists. split.
  { unfold diff_desktop_hook_lists, FAIL_IF.
    destruct (Z.eqb_spec (init_time A) 0); [done|].
    destruct (Z.eqb_spec (init_time B) 0); [done|]. reflexivity. }
  rewrite (of_desktop_diff A (head B) a b) by auto using paired_item.
  unfold diff_desktop_hook_items.
  rewrite about_merge_hooks by done.
  repeat split.
  - intros y Hy Hk Hna.
    by rewrite (find_key_None k (records a)), (find_key_Some k _ y).
  - intros x Hx Hk Hnb.
    by rewrite (find_key_None k (records b)), (find_key_Some k _ x).
  - intros x y Hx Hy Hkx Hky.
    by rewrite (find_key_Some k _ x), (find_key_Some k _ y).
  - intros Hna Hnb.
    by rewrite (find_key_None k (records a)), (find_key_None k (records b)).
Qed.

(** ** The sort and the walk over one item *)

Lemma compare_hook_le a b :
  compare_hook a b <= 0 <-> pHead (entry a) <= pHead (entry b).
Proof.
  unfold compare_hook. rewrite Z.gtb_ltb.
  destruct (Z.ltb_spec (pHead (entry a)) (pHead (entry b)));
    destruct (Z.ltb_spec (pHead (entry b)) (pHead (entry a))); lia.
Qed.

Lemma compare_hook_total a b : compare_hook a b <= 0 \/ compare_hook b a <= 0.
Proof. rewrite !compare_hook_le. lia. Qed.

(** compare_hook returns -1, 1 or 0 as the comment above it says. *)
Lemma compare_hook_sign a b :
  (pHead (entry a) < pHead (entry b) -> compare_hook a b = -1)
  /\ (pHead (entry a) > pHead (entry b) -> compare_hook a b = 1)
  /\ (pHead (entry a) = pHead (entry b) -> compare_hook a b = 0).
Proof.
  unfold compare_hook. rewrite Z.gtb_ltb.
  destruct (Z.ltb_spec (pHead (entry a)) (pHead (entry b)));
    destruct (Z.ltb_spec (pHead (entry b)) (pHead (entry a))); lia.
Qed.

Lemma check_pHead_cons a b l :
  check_pHead (a :: b :: l)
  = if pHead (entry a) =? pHead (entry b) then Some (Duplicate_pHead a b)
    else if pHead (entry a) =? NULL then Some (Invalid_pHead a)
    else if pHead (entry b) =? NULL then Some (Invalid_pHead b)
    else check_pHead (b :: l).
Proof. reflexivity. Qed.

Lemma check_pHead_passes l :
  Sorted (fun a b => compare_hook a b <= 0) l ->
  check_pHead l = None ->
  StronglySorted Z.lt (map key l)
  /\ ((2 <= length l)%nat -> Forall (fun k => k <> NULL) (map key l)).
Proof.
  induction l as [|a [|b l] IH]; intros Hsorted Hcheck.
  - split; [constructor|simpl; lia].
  - split; [repeat constructor|simpl; lia].
  - apply Sorted_inv in Hsorted as [Hsorted Hab].
    apply HdRel_inv, compare_hook_le in Hab.
    rewrite check_pHead_cons in Hcheck.
    destruct (Z.eqb_spec (pHead (entry a)) (pHead (entry b))); [done|].
    destruct (Z.eqb_spec (pHead (entry a)) NULL); [done|].
    destruct (Z.eqb_spec (pHead (entry b)) NULL); [done|].
    destruct (IH Hsorted Hcheck) as [IHs IHz].
    assert (key a < key b) as Hlt by (unfold key; lia).
    split.
    + apply Sorted_StronglySorted; [intros ???; lia|].
      constructor; [by apply StronglySorted_Sorted|].
      by constructor.
    + intros _. constructor; [done|].
      destruct l as [|c l]; [by repeat constructor|].
      apply IHz. simpl. lia.
Qed.

Lemma strongly_sorted_lt_lookup (l : list Z) i j x y :
  StronglySorted Z.lt l -> l !! i = Some x -> l !! j = Some y ->
  (i < j)%nat -> x < y.
Proof.
  intros Hl. revert i j. induction Hl as [|z l Hl IH Hz]; intros i j; [done|].
  destruct i as [|i], j as [|j]; simpl; try lia.
  - intros [= <-] Hy _. rewrite Forall_forall in Hz. apply Hz.
    by eapply list_elem_of_lookup_2.
  - intros Hx Hy Hij. apply (IH i j); [done|done|lia].
Qed.

Lemma strongly_sorted_lt_NoDup (l : list Z) : StronglySorted Z.lt l -> NoDup l.
Proof.
  induction 1 as [|z l Hl IH Hz]; constructor; [|done].
  rewrite Forall_forall in Hz. intros Hin. specialize (Hz _ Hin). lia.
Qed.

Section SortItem.
Context `{Qsort}.

(** The valid records after the sort are the qsort of the valid records. *)
Lemma records_sort_item it :
  records (sort_item it) = qsort compare_hook (records it).
Proof.
  unfold sort_item, records. simpl.
  set (n := Z.to_nat (hook_count it)).
  pose proof (Permutation_length (qsort_Permutation compare_hook
                                    (take n (hook_array it)))) as Hlen.
  rewrite length_take in Hlen.
  rewrite take_app. destruct (Nat.le_gt_cases n (length (hook_array it))).
  - rewrite take_ge by lia.
    replace (n - _)%nat with 0%nat by lia. by rewrite take_0, app_nil_r.
  - rewrite take_ge by lia. rewrite drop_ge by lia.
    by rewrite take_nil, app_nil_r.
Qed.

Lemma records_sorted it :
  Sorted (fun a b => compare_hook a b <= 0) (records (sort_item it)).
Proof. rewrite records_sort_item. apply qsort_Sorted, compare_hook_total. Qed.

(** An item that passes the walk has its records in strictly ascending
    order of pHead, and, when it has two records or more, without a NULL
    pHead.  (The walk compares neighbours: it does not look at the pHead
    of a lone record.) *)
Lemma sort_item_passes it :
  check_pHead (records (sort_item it)) = None ->
  StronglySorted Z.lt (keys (sort_item it))
  /\ ((2 <= length (records it))%nat ->
      Forall (fun k => k <> NULL) (keys (sort_item it))).
Proof.
  intros Hcheck.
  destruct (check_pHead_passes _ (records_sorted it) Hcheck) as [Hs Hz].
  split; [done|]. intros Hlen. apply Hz.
  rewrite records_sort_item.
  by rewrite (Permutation_length (qsort_Permutation compare_hook (records it))).
Qed.

(** Two records with the same pHead make the walk end the process. *)
Lemma sort_item_duplicate it i j a b :
  records it !! i = Some a -> records it !! j = Some b -> i <> j ->
  key a = key b ->
  exists why, check_pHead (records (sort_item it)) = Some why.
Proof.
  intros Ha Hb Hij Hkey.
  destruct (check_pHead (records (sort_item it))) as [why|] eqn:Hcheck;
    [by exists why|exfalso].
  destruct (sort_item_passes it Hcheck) as [Hs _].
  pose proof (strongly_sorted_lt_NoDup _ Hs) as Hnodup.
  unfold keys in Hnodup. rewrite records_sort_item in Hnodup.
  rewrite (qsort_Permutation compare_hook (records it)) in Hnodup.
  apply Hij. eapply NoDup_lookup; [exact Hnodup| |].
  - rewrite list_lookup_fmap, Ha. done.
  - rewrite list_lookup_fmap, Hb. simpl. by rewrite Hkey.
Qed.

(** A second sort of a sorted item that passed the walk changes nothing. *)
Lemma sort_item_again it :
  check_pHead (records (sort_item it)) = None ->
  sort_item (sort_item it) = sort_item it.
Proof.
  intros Hcheck. destruct (sort_item_passes it Hcheck) as [Hs _].
  assert (qsort compare_hook (records (sort_item it)) = records (sort_item it))
    as Hfix.
  { apply (StronglySorted_unique_strong (fun a b => key a < key b)).
    - intros x1 x2 _ _ ??. lia.
    - pose proof (records_sorted (sort_item it)) as Hs2.
      rewrite records_sort_item in Hs2.
      apply Sorted_StronglySorted; [intros ???; lia|].
      assert (NoDup (map key (qsort compare_hook (records (sort_item it)))))
        as Hnodup.
      { rewrite (qsort_Permutation compare_hook (records (sort_item it))).
        by apply strongly_sorted_lt_NoDup. }
      revert Hs2 Hnodup. generalize (qsort compare_hook (records (sort_item it))).
      induction 1 as [|a l Hl IH Hhd]; intros Hnodup; [constructor|].
      apply NoDup_cons in Hnodup as [Hnotin Hnodup].
      constructor; [by apply IH|].
      destruct Hhd as [|b l Hab]; constructor.
      apply compare_hook_le in Hab. unfold key.
      assert (key a <> key b); [|unfold key in *; lia].
      intros E. apply Hnotin. simpl. rewrite E. left.
    - clear -Hs. unfold keys in Hs. revert Hs.
      generalize (records (sort_item it)).
      induction l as [|a l IH]; simpl; intros Hs; [constructor|].
      apply StronglySorted_cons in Hs as [Hall Hs].
      constructor; [by apply IH|]. by rewrite Forall_map in Hall.
    - apply qsort_Permutation. }
  unfold sort_item at 1. rewrite Hfix. unfold records.
  rewrite take_drop. by destruct (sort_item it).
Qed.

Lemma sort_hooks_step fuel s n it :
  head s !! n = Some it ->
  sort_hooks (S fuel) s (Some n)
  = match check_pHead (records (sort_item it)) with
    | Some why => Exit why (set_head (<[n := sort_item it]> (head s)) s)
    | None => sort_hooks fuel (set_head (<[n := sort_item it]> (head s)) s)
                (Some n)
    end.
Proof. intros Hit. cbn [sort_hooks]. by rewrite Hit. Qed.

(** So the loop of lines 310 to 349 ends the process on a head with two
    records of the same pHead, and runs for ever on a head that passes the
    walk. *)
Lemma sort_hooks_duplicate fuel s it rest i j a b :
  head s = it :: rest ->
  records it !! i = Some a -> records it !! j = Some b -> i <> j ->
  key a = key b ->
  exists why,
    sort_hooks (S fuel) s (head_ptr s)
    = Exit why (set_head (sort_item it :: rest) s).
Proof.
  intros Hs Ha Hb Hij Hkey.
  destruct (sort_item_duplicate it i j a b Ha Hb Hij Hkey) as [why Hwhy].
  exists why. unfold head_ptr. rewrite Hs.
  rewrite (sort_hooks_step fuel s 0 it) by by rewrite Hs.
  by rewrite Hwhy, Hs.
Qed.

Lemma sort_hooks_spins s it rest :
  head s = it :: rest ->
  check_pHead (records (sort_item it)) = None ->
  forall fuel, sort_hooks fuel s (head_ptr s) = OutOfFuel.
Proof.
  intros Hs Hcheck fuel. unfold head_ptr. rewrite Hs.
  revert s it Hs Hcheck. induction fuel as [|fuel IH]; intros s it Hs Hcheck;
    [done|].
  rewrite (sort_hooks_step fuel s 0 it) by by rewrite Hs.
  rewrite Hcheck, Hs.
  apply (IH _ (sort_item it)); [done|]. by rewrite sort_item_again.
Qed.

End SortItem.

(** ** A store with items: the head item takes the hooks of its desktop *)

Section HeadItem.
Context `{Platform} `{Qsort}.
Variable G : global.
Variable os : system.

Lemma records_appended it x :
  0 <= hook_count it < Z.of_nat (length (hook_array it)) ->
  hook_count it < 2 ^ 32 - 1 ->
  records (appended it x) = records it ++ [x].
Proof.
  intros Hc Hmax. unfold records, appended. simpl.
  rewrite uint_incr_small by lia.
  replace (Z.to_nat (hook_count it + 1)) with (S (Z.to_nat (hook_count it)))
    by lia.
  rewrite (take_S_r _ _ x) by (apply list_lookup_insert_eq; lia).
  by rewrite take_insert_ge.
Qed.

(** Lines 260 to 306 on a table whose hooks are all on the desktop of the
    head item, with room for them: the head item gets their records, in
    the order of the table, after the records it had. *)
Lemma record_hooks_head fuel entries : forall s it rest d,
  head s = it :: rest ->
  desktop_at (desktops_head G) (desktop it) = Some d ->
  Forall (fun e => bType e = TYPE_HOOK -> on_desktop d e = true) entries ->
  0 <= hook_count it ->
  hook_count it + Z.of_nat (length (hooks_of entries)) < hook_max it ->
  hook_max it <= Z.of_nat (length (hook_array it)) ->
  hook_max it < 2 ^ 32 ->
  exists it',
    record_hooks G os (S fuel) entries s = Ret tt (set_head (it' :: rest) s)
    /\ desktop it' = desktop it /\ hook_max it' = hook_max it
    /\ length (hook_array it') = length (hook_array it)
    /\ hook_count it'
       = hook_count it + Z.of_nat (length (hooks_of entries))
    /\ records it' = records it ++ map (copy_hook os d) (hooks_of entries).
Proof.
  induction entries as [|e entries IH]; intros s it rest d Hs Hd Hon Hc Hroom Hlen Hmax.
  { exists it. cbn [record_hooks]. unfold hooks_of. rewrite filter_nil. simpl.
    rewrite Z.add_0_r, app_nil_r. repeat split; try done.
    destruct s; simpl in *. by rewrite Hs. }
  apply Forall_cons in Hon as [He Hon]. cbn [record_hooks].
  unfold hooks_of in *.
  destruct (Z.eqb_spec (bType e) TYPE_HOOK) as [Hty|Hty]; simpl negb; cbv iota.
  2:{ rewrite filter_cons_False in * by done. by apply IH. }
  rewrite filter_cons_True in * by done. simpl length in Hroom.
  rewrite head_ptr_Some by by rewrite Hs.
  rewrite (find_desktop_found G s e 0 it d)
    by first [by rewrite Hs | done | by apply He].
  cbn [bind].
  rewrite (record_hook_in_bounds G os s 0 it d e)
    by first [by rewrite Hs | done | lia].
  cbv zeta.
  rewrite uint_incr_small by lia.
  destruct (Z.geb_spec (hook_count it + 1) (hook_max it)) as [|_]; [lia|].
  cbn [bind]. rewrite Hs. cbn [insert list_insert].
  set (it1 := appended it (copy_hook os d e)).
  assert (hook_count it1 = hook_count it + 1) as Hc1.
  { subst it1. simpl. apply uint_incr_small. lia. }
  destruct (IH (set_head (it1 :: rest) s) it1 rest d)
    as (it' & Hret & Hdesk & Hmax' & Hlen' & Hcount & Hrec);
    try done.
  - lia.
  - rewrite Hc1. simpl hook_max. lia.
  - subst it1. simpl. by rewrite length_insert.
  - exists it'. rewrite Hret. split; [done|]. split; [done|]. split; [done|].
    split; [by rewrite Hlen'; subst it1; simpl; rewrite length_insert|].
    split; [rewrite Hcount, Hc1; simpl length; lia|].
    rewrite Hrec. subst it1. rewrite records_appended by lia.
    by rewrite <- app_assoc.
Qed.

(** The same with too many hooks for the head item: the process is ended
    when its count reaches hook_max. *)
Lemma record_hooks_too_many fuel entries : forall s it rest d,
  head s = it :: rest ->
  desktop_at (desktops_head G) (desktop it) = Some d ->
  Forall (fun e => bType e = TYPE_HOOK -> on_desktop d e = true) entries ->
  0 <= hook_count it < hook_max it ->
  hook_max it <= hook_count it + Z.of_nat (length (hooks_of entries)) ->
  hook_max it <= Z.of_nat (length (hook_array it)) ->
  hook_max it < 2 ^ 32 ->
  exists s',
    record_hooks G os (S fuel) entries s
    = Exit (Too_many_HOOK_objects (hook_max it) (hook_max it)) s'.
Proof.
  induction entries as [|e entries IH]; intros s it rest d Hs Hd Hon Hc Hroom Hlen Hmax.
  { unfold hooks_of in Hroom. rewrite filter_nil in Hroom. simpl in Hroom. lia. }
  apply Forall_cons in Hon as [He Hon]. cbn [record_hooks].
  unfold hooks_of in *.
  destruct (Z.eqb_spec (bType e) TYPE_HOOK) as [Hty|Hty]; simpl negb; cbv iota.
  2:{ rewrite filter_cons_False in * by done. by eapply IH. }
  rewrite filter_cons_True in * by done. simpl length in Hroom.
  rewrite head_ptr_Some by by rewrite Hs.
  rewrite (find_desktop_found G s e 0 it d)
    by first [by rewrite Hs | done | by apply He].
  cbn [bind].
  rewrite (record_hook_in_bounds G os s 0 it d e)
    by first [by rewrite Hs | done | lia].
  cbv zeta.
  rewrite uint_incr_small by lia.
  destruct (Z.geb_spec (hook_count it + 1) (hook_max it)) as [Hfull|Hfree].
  { replace (hook_count it + 1) with (hook_max it) by lia. cbn [bind]. eauto. }
  cbn [bind]. rewrite Hs. cbn [insert list_insert].
  set (it1 := appended it (copy_hook os d e)).
  assert (hook_count it1 = hook_count it + 1) as Hc1.
  { subst it1. simpl. apply uint_incr_small. lia. }
  destruct (IH (set_head (it1 :: rest) s) it1 rest d) as [s' Hexit]; try done.
  - rewrite Hc1. simpl hook_max. lia.
  - rewrite Hc1. simpl hook_max. lia.
  - subst it1. simpl. by rewrite length_insert.
  - exists s'. by rewrite Hexit.
Qed.

End HeadItem.

(** ** init_desktop_hook_store on a store with items *)

Section WithItems.
Context `{Platform} `{Qsort}.
Variable G : global.
Variable os : system.
Variable p : snapshot.
Variable it0 : desktop_hook_item.
Variable rest : list desktop_hook_item.
Variable d : desktop_item.

Hypothesis Hpre : preconditions G os (Some p) = true.
Hypothesis Hhead : head (desktop_hooks p) = it0 :: rest.
Hypothesis Hdesk : desktop_at (desktops_head G) (desktop it0) = Some d.
Hypothesis Hon :
  Forall (fun e => bType e = TYPE_HOOK -> on_desktop d e = true) (aheList G).
Hypothesis Hlen : hook_max it0 <= Z.of_nat (length (hook_array it0)).
Hypothesis Hmax : 0 < hook_max it0 < 2 ^ 32.

(** The store after line 237 and the soft reset. *)
Let s1 : desktop_hook_list := soft_reset (set_init_time 0 (desktop_hooks p)).

Lemma head_after_reset :
  head s1 = set_hook_count 0 it0 :: map (set_hook_count 0) rest.
Proof using Hhead. subst s1. unfold soft_reset. simpl. by rewrite Hhead. Qed.

Lemma init_with_items fuel :
  init_desktop_hook_store G os fuel (Some p)
  = within (fun s => Some (set_desktop_hooks p s))
      (do (_, store) <- record_hooks G os fuel (aheList G) s1;
       do (_, store) <- sort_hooks fuel store (head_ptr store);
       Ret 1 (set_init_time (GetSystemTimeAsFileTime os) store)).
Proof using Hpre Hhead.
  rewrite init_past_preconditions by done.
  rewrite refresh_store_phases. unfold first_phase.
  change (head (set_init_time 0 (desktop_hooks p))) with (head (desktop_hooks p)).
  by rewrite Hhead.
Qed.

Lemma record_hooks_no_fuel entries s :
  record_hooks G os 0 entries s = Ret tt s
  \/ record_hooks G os 0 entries s = OutOfFuel.
Proof using Type.
  induction entries as [|e entries IH]; simpl; [by left|].
  destruct (negb _); [done|by right].
Qed.

(** As many hooks on the desktop of the head item as hook_max, or more:
    the process is ended with "Too many HOOK objects!". *)
Lemma init_too_many fuel :
  hook_max it0 <= Z.of_nat (length (hooks_of (aheList G))) ->
  exists m,
    init_desktop_hook_store G os (S fuel) (Some p)
    = Exit (Too_many_HOOK_objects (hook_max it0) (hook_max it0)) m.
Proof using All.
  intros Hmany. rewrite init_with_items.
  destruct (record_hooks_too_many G os fuel (aheList G) s1
              (set_hook_count 0 it0) (map (set_hook_count 0) rest) d)
    as [s' Hexit];
    [apply head_after_reset|done|done|simpl; lia..|].
  simpl in Hexit. rewrite Hexit. simpl. eauto.
Qed.

(** Fewer hooks than hook_max: the head item gets their records. *)
Lemma scan_with_items fuel :
  Z.of_nat (length (hooks_of (aheList G))) < hook_max it0 ->
  exists it',
    record_hooks G os (S fuel) (aheList G) s1
    = Ret tt (set_head (it' :: map (set_hook_count 0) rest) s1)
    /\ records it' = map (copy_hook os d) (hooks_of (aheList G)).
Proof using All.
  intros Hfew.
  destruct (record_hooks_head G os fuel (aheList G) s1
              (set_hook_count 0 it0) (map (set_hook_count 0) rest) d)
    as (it' & Hret & _ & _ & _ & _ & Hrec);
    [apply head_after_reset|done|done|simpl; lia..|].
  exists it'. split; [done|]. by rewrite Hrec.
Qed.

(** Two of them for the same pHead: the walk after the sort ends the
    process. *)
Lemma init_duplicate fuel i j e1 e2 :
  Z.of_nat (length (hooks_of (aheList G))) < hook_max it0 ->
  hooks_of (aheList G) !! i = Some e1 ->
  hooks_of (aheList G) !! j = Some e2 ->
  i <> j -> pHead e1 = pHead e2 ->
  exists why m, init_desktop_hook_store G os (S fuel) (Some p) = Exit why m.
Proof using All.
  intros Hfew H1 H2 Hij Hkey. rewrite init_with_items.
  destruct (scan_with_items fuel Hfew) as (it' & -> & Hrec). cbn [bind].
  destruct (sort_hooks_duplicate fuel
              (set_head (it' :: map (set_hook_count 0) rest) s1)
              it' (map (set_hook_count 0) rest) i j
              (copy_hook os d e1) (copy_hook os d e2))
    as [why Hexit]; try done.
  - by rewrite Hrec, list_lookup_fmap, H1.
  - by rewrite Hrec, list_lookup_fmap, H2.
  - rewrite Hexit. simpl. eauto.
Qed.

(** All of them told apart by the walk: the loop of lines 310 to 349 goes
    round on the head item, and the call neither returns nor ends the
    process. *)
Lemma init_spins :
  Z.of_nat (length (hooks_of (aheList G))) < hook_max it0 ->
  check_pHead (qsort compare_hook
                 (map (copy_hook os d) (hooks_of (aheList G)))) = None ->
  forall fuel, init_desktop_hook_store G os fuel (Some p) = OutOfFuel.
Proof using All.
  intros Hfew Hcheck [|fuel]; rewrite init_with_items.
  - by destruct (record_hooks_no_fuel (aheList G) s1) as [-> | ->].
  - destruct (scan_with_items fuel Hfew) as (it' & -> & Hrec). cbn [bind].
    rewrite (sort_hooks_spins _ it' (map (set_hook_count 0) rest)); try done.
    by rewrite records_sort_item, Hrec.
Qed.

End WithItems.

(** ** The code on stores with items *)

Lemma hooks_of_all `{Platform} entries :
  Forall (fun e => bType e = TYPE_HOOK) entries -> hooks_of entries = entries.
Proof.
  unfold hooks_of. induction 1 as [|e entries He _ IH]; [done|].
  by rewrite filter_cons_True, IH.
Qed.

Lemma G_full_on_Default :
  Forall (fun e => bType e = 5 /\ on_desktop desk_Default e = true)
    (aheList G_full).
Proof.
  unfold G_full, set_aheList, aheList. apply Forall_map, Forall_seqZ.
  intros i Hi. split; [done|]. unfold on_desktop, hook_entry. simpl.
  apply andb_true_intro. split; [apply Z.leb_le|apply Z.ltb_lt]; lia.
Qed.

Lemma G_full_length : Z.of_nat (length (aheList G_full)) = 65535.
Proof.
  unfold G_full, set_aheList, aheList. rewrite length_map, length_seqZ. lia.
Qed.

(** C6 as stated fails: a handle table with 65535 hooks on the desktop of
    the head item, as many as the capacity of the item and no more, ends
    the process with "Too many HOOK objects!". *)
Lemma full_table_is_fatal :
  Z.of_nat (length (aheList G_full)) = 65535
  /\ Forall (fun e => bType e = 5 /\ on_desktop desk_Default e = true)
       (aheList G_full)
  /\ hook_max (new_item 0x500) = 65535
  /\ exists m,
       @init_desktop_hook_store win32_x86 merge_qsort G_full os_main 1
         (Some snapshot_Default)
       = Exit (Too_many_HOOK_objects 65535 65535) m.
Proof.
  split; [apply G_full_length|]. split; [apply G_full_on_Default|].
  split; [done|].
  assert (@hooks_of win32_x86 (aheList G_full) = aheList G_full) as Hall.
  { apply hooks_of_all. eapply Forall_impl; [apply G_full_on_Default|].
    by intros e [? _]. }
  apply (@init_too_many win32_x86 merge_qsort G_full os_main snapshot_Default
           (new_item 0x500) [] desk_Default).
  - reflexivity.
  - reflexivity.
  - reflexivity.
  - eapply Forall_impl; [apply G_full_on_Default|]. by intros e [_ ?] _.
  - change (65535 <= Z.of_nat (length (must_calloc_hooks 65535))).
    by rewrite must_calloc_hooks_length.
  - cbv [hook_max new_item]. lia.
  - rewrite Hall, G_full_length. cbv [hook_max new_item]. lia.
Qed.

(** With items in the store, two handle entries for one HOOK on the
    desktop of the head item do end the process. *)
Example duplicate_on_head_item fuel :
  exists why m,
    @init_desktop_hook_store win32_x86 merge_qsort G_twice_Default os_main
      (S fuel) (Some snapshot_Default)
    = Exit why m.
Proof.
  apply (@init_duplicate win32_x86 merge_qsort G_twice_Default os_main
           snapshot_Default (new_item 0x500) [] desk_Default)
    with (i := 0%nat) (j := 1%nat) (e1 := hook_entry 0x10800)
         (e2 := hook_entry 0x10800).
  - reflexivity.
  - reflexivity.
  - reflexivity.
  - repeat constructor.
  - change (65535 <= Z.of_nat (length (must_calloc_hooks 65535))).
    by rewrite must_calloc_hooks_length.
  - cbv [hook_max new_item]. lia.
  - cbv [hook_max new_item]. vm_compute. reflexivity.
  - reflexivity.
  - reflexivity.
  - discriminate.
  - reflexivity.
Qed.

(** With items in the store and two different HOOKs on the desktop of the
    head item, the call does not come back. *)
Example refresh_with_items_spins fuel :
  @init_desktop_hook_store win32_x86 merge_qsort G_two_hooks os_main
    fuel (Some snapshot_Default)
  = OutOfFuel.
Proof.
  apply (@init_spins win32_x86 merge_qsort G_two_hooks os_main
           snapshot_Default (new_item 0x500) [] desk_Default).
  - reflexivity.
  - reflexivity.
  - reflexivity.
  - repeat constructor.
  - change (65535 <= Z.of_nat (length (must_calloc_hooks 65535))).
    by rewrite must_calloc_hooks_length.
  - cbv [hook_max new_item]. lia.
  - cbv [hook_max new_item]. vm_compute. reflexivity.
  - vm_compute. reflexivity.
Qed.

(** ** A refresh of a store with an item never completes *)

Lemma sort_item_length `{Qsort} it :
  (Z.to_nat (hook_count it) <= length (hook_array it))%nat ->
  length (hook_array (sort_item it)) = length (hook_array it).
Proof.
  intros Hn. unfold sort_item. cbn [hook_array set_hook_array].
  rewrite length_app, length_drop.
  rewrite (Permutation_length (qsort_Permutation compare_hook (records it))).
  unfold records. rewrite length_take. lia.
Qed.

Lemma init_with_item_no_return `{Platform} `{Qsort} G os fuel p it0 rest r m :
  head (desktop_hooks p) = it0 :: rest ->
  init_desktop_hook_store G os fuel (Some p) <> Ret r m.
Proof.
  intros Hhead Hret.
  apply init_returns in Hret as (p' & [= <-] & _ & _ & Hnil & _).
  congruence.
Qed.



(** C8.  On a store that has an item the first refresh does not
    complete, so that no second refresh follows it.  With the HOOKs of
    the handle table on the desktop of the first item and fewer of them
    than hook_max: the soft reset and the scan leave in the first item
    the records of the HOOKs of the table, whatever the item held; on the
    store as the sort then leaves it, the soft reset and the scan against
    the same handle table, heap and gui threads leave the same records,
    in the same order, the same count and the same desktops; but
    init_desktop_hook_store never returns, and when the walk finds no
    fault it goes round in the loop of line 310 for ever. *)
Theorem second_refresh_never_starts `{Platform} `{Qsort}
    (G : global) (os : system) (p : snapshot) (it0 : desktop_hook_item)
    (rest : list desktop_hook_item) (d : desktop_item) :
  preconditions G os (Some p) = true ->
  head (desktop_hooks p) = it0 :: rest ->
  desktop_at (desktops_head G) (desktop it0) = Some d ->
  Forall (fun e => bType e = TYPE_HOOK -> on_desktop d e = true) (aheList G) ->
  hook_max it0 <= Z.of_nat (length (hook_array it0)) ->
  0 < hook_max it0 < 2 ^ 32 ->
  Z.of_nat (length (hooks_of (aheList G))) < hook_max it0 ->
  exists it1 it2,
    (do (_, store) <- first_phase G (set_init_time 0 (desktop_hooks p));
     record_hooks G os 1 (aheList G) store)
    = Ret tt (set_head (it1 :: map (set_hook_count 0) rest)
                       (set_init_time 0 (desktop_hooks p)))
    /\ records it1 = map (copy_hook os d) (hooks_of (aheList G))
    /\ hook_count it1 = Z.of_nat (length (hooks_of (aheList G)))
    /\ (do (_, store) <-
          first_phase G
            (set_init_time 0
               (set_head (sort_item it1 :: map (set_hook_count 0) rest)
                         (desktop_hooks p)));
        record_hooks G os 1 (aheList G) store)
       = Ret tt (set_head (it2 :: map (set_hook_count 0) rest)
                          (set_init_time 0 (desktop_hooks p)))
    /\ records it2 = records it1
    /\ hook_count it2 = hook_count it1
    /\ desktop it2 = desktop it1
    /\ hook_max it2 = hook_max it1
    /\ (forall fuel r m, init_desktop_hook_store G os fuel (Some p) <> Ret r m)
    /\ (check_pHead (records (sort_item it1)) = None ->
        forall fuel, init_desktop_hook_store G os fuel (Some p) = OutOfFuel).
Proof.
  intros Hpre Hhead Hdesk Hon Hlen Hmax Hfew.
  set (s0 := set_init_time 0 (desktop_hooks p)).
  set (rest0 := map (set_hook_count 0) rest).
  assert (map (set_hook_count 0) rest0 = rest0) as Hrest.
  { subst rest0. rewrite map_map. apply map_ext. by intros []. }
  destruct (record_hooks_head G os 0 (aheList G) (soft_reset s0)
              (set_hook_count 0 it0) rest0 d)
    as (it1 & Hret1 & Hd1 & Hm1 & Hl1 & Hc1 & Hrec1);
    [subst s0 rest0; unfold soft_reset; simpl; by rewrite Hhead
    |done|done|simpl; lia..|].
  simpl in Hd1, Hm1, Hl1, Hc1, Hrec1.
  assert (Z.to_nat (hook_count it1) <= length (hook_array it1))%nat as Hin.
  { rewrite Hc1, Hl1. lia. }
  set (s2 := set_init_time 0
               (set_head (sort_item it1 :: rest0) (desktop_hooks p))).
  destruct (record_hooks_head G os 0 (aheList G) (soft_reset s2)
              (set_hook_count 0 (sort_item it1)) rest0 d)
    as (it2 & Hret2 & Hd2 & Hm2 & Hl2 & Hc2 & Hrec2).
  { subst s2. unfold soft_reset. simpl. by rewrite Hrest. }
  { change (desktop (set_hook_count 0 (sort_item it1))) with (desktop it1).
    by rewrite Hd1. }
  { done. }
  { cbn [hook_count set_hook_count]. lia. }
  { change (hook_max (set_hook_count 0 (sort_item it1))) with (hook_max it1).
    cbn [hook_count set_hook_count]. rewrite Hm1. lia. }
  { change (hook_max (set_hook_count 0 (sort_item it1))) with (hook_max it1).
    change (hook_array (set_hook_count 0 (sort_item it1)))
      with (hook_array (sort_item it1)).
    rewrite sort_item_length, Hl1, Hm1 by done. lia. }
  { change (hook_max (set_hook_count 0 (sort_item it1))) with (hook_max it1).
    rewrite Hm1. lia. }
  simpl in Hd2, Hm2, Hl2, Hc2, Hrec2.
  exists it1, it2. split; [|split; [|split; [|split]]].
  - unfold first_phase. change (head s0) with (head (desktop_hooks p)).
    rewrite Hhead. cbn [bind]. exact Hret1.
  - exact Hrec1.
  - rewrite Hc1. lia.
  - unfold first_phase. cbn [head set_init_time set_head bind].
    fold s2. exact Hret2.
  - split; [by rewrite Hrec2, Hrec1|]. split; [rewrite Hc2, Hc1; lia|].
    split; [by rewrite Hd2|]. split; [by rewrite Hm2|].
    split; [intros fuel r m; by eapply init_with_item_no_return|].
    intros Hcheck. apply (init_spins G os p it0 rest d); try done.
    by rewrite records_sort_item, Hrec1 in Hcheck.
Qed.

Lemma second_refresh_never_starts_witness :
  records item_A = [hook_at 0x11000 4; hook_at 0x12000 0]
  /\ exists it1 it2,
       records it1
       = [@copy_hook win32_x86 os_main desk_Default (hook_entry 0x10800);
          @copy_hook win32_x86 os_main desk_Default (hook_entry 0x10400)]
       /\ records it2 = records it1
       /\ forall fuel,
            @init_desktop_hook_store win32_x86 merge_qsort G_two_hooks os_main
              fuel (Some snapshot_A)
            = OutOfFuel.
Proof.
  split; [reflexivity|].
  destruct (@second_refresh_never_starts win32_x86 merge_qsort
              G_two_hooks os_main snapshot_A item_A [] desk_Default)
    as (it1 & it2 & _ & Hrec1 & _ & _ & Hrec2 & _ & _ & _ & _ & Hspin).
  - reflexivity.
  - reflexivity.
  - reflexivity.
  - repeat constructor.
  - vm_compute. congruence.
  - vm_compute. split; [reflexivity|reflexivity].
  - vm_compute. reflexivity.
  - exists it1, it2. split; [rewrite Hrec1; reflexivity|].
    split; [exact Hrec2|].
    apply Hspin. rewrite records_sort_item, Hrec1. reflexivity.
Defined.

(** ** The scenarios of the diff *)

Example diff_scenarios :
  diff_desktop_hook_lists store_A store_B
  = Ret [modified 0x500 (hook_at 0x11000 4) (hook_at 0x11000 8);
         removed 0x500 (hook_at 0x12000 0);
         added 0x500 (hook_at 0x13000 0)] tt.
Proof. reflexivity. Qed.

Example diff_needs_valid_stores :
  diff_desktop_hook_lists created_store store_B
  = Exit (failed "!list1->init_time") tt.
Proof. reflexivity. Qed.

Lemma valid_store_A : valid_store store_A.
Proof.
  split; [discriminate|]. split; [repeat constructor; by intros ?%elem_of_nil|].
  repeat constructor; simpl; (lia || discriminate).
Defined.

Lemma valid_store_B : valid_store store_B.
Proof.
  split; [discriminate|]. split; [repeat constructor; by intros ?%elem_of_nil|].
  repeat constructor; simpl; (lia || discriminate).
Defined.

Lemma diff_classifies_each_key_witness :
  valid_store store_A /\ valid_store store_B
  /\ exists evs,
       diff_desktop_hook_lists store_A store_B = Ret evs tt
       /\ about 0x13000 (of_desktop 0x500 evs)
          = [added 0x500 (hook_at 0x13000 0)].
Proof.
  split; [exact valid_store_A|]. split; [exact valid_store_B|].
  destruct (diff_classifies_each_key store_A store_B item_A item_B 0x13000
              valid_store_A valid_store_B)
    as (evs & Hdiff & Hadded & _).
  - by left.
  - by left.
  - reflexivity.
  - exists evs. split; [exact Hdiff|].
    apply (Hadded (hook_at 0x13000 0)).
    + right. left.
    + reflexivity.
    + simpl. intros Hin.
      repeat (apply elem_of_cons in Hin as [Hin|Hin]; [done|]).
      by apply elem_of_nil in Hin.
Defined.

(** ** The soft reset, and the time stamp on a fatal path *)

(** Lines 253 and 254 keep the items and their desktops, arrays and
    capacities, and set every hook_count to 0. *)
Lemma soft_reset_items s :
  map desktop (head (soft_reset s)) = map desktop (head s)
  /\ map hook_array (head (soft_reset s)) = map hook_array (head s)
  /\ map hook_max (head (soft_reset s)) = map hook_max (head s)
  /\ Forall (fun it => hook_count it = 0) (head (soft_reset s)).
Proof.
  unfold soft_reset. simpl. rewrite !map_map. simpl.
  repeat split. apply Forall_map, Forall_true. done.
Qed.

Lemma init_time_after_refresh_witness :
  exists why m,
    @init_desktop_hook_store win32_x86 merge_qsort G_twice_Default os_main 1
      (Some snapshot_Default) = Exit why m
    /\ store_init_time m = Some 0.
Proof.
  destruct (duplicate_on_head_item 0) as (why & m & Hexit).
  exists why, m. split; [exact Hexit|].
  destruct (proj2 (@init_time_after_refresh win32_x86 merge_qsort
                     G_twice_Default os_main 1 (Some snapshot_Default))
              why m Hexit) as [[Hpre _]|[_ Htime]].
  - discriminate Hpre.
  - exact Htime.
Defined.

(** * More of desktop_hook.c *)

(** ** compare_hook as a comparison function for qsort *)

(** X1.  compare_hook answers -1, 0 or 1; it answers a negative number
    exactly when the first pHead is below the second and 0 exactly when
    the two are the same address; the answer for swapped arguments is the
    opposite number; and the order it gives is transitive.  These are the
    demands of qsort on its comparison function. *)
Theorem compare_hook_orders_by_pHead (a b c : hook) :
  (compare_hook a b = -1 \/ compare_hook a b = 0 \/ compare_hook a b = 1)
  /\ compare_hook b a = - compare_hook a b
  /\ (compare_hook a b < 0 <-> pHead (entry a) < pHead (entry b))
  /\ (compare_hook a b = 0 <-> pHead (entry a) = pHead (entry b))
  /\ (compare_hook a b <= 0 -> compare_hook b c <= 0 -> compare_hook a c <= 0).
Proof.
  rewrite !compare_hook_le.
  destruct (compare_hook_sign a b) as (Hlt & Hgt & Heq).
  destruct (compare_hook_sign b a) as (Hlt' & Hgt' & Heq').
  destruct (Z.lt_trichotomy (pHead (entry a)) (pHead (entry b))) as [E|[E|E]].
  - rewrite (Hlt E), (Hgt' ltac:(lia)). repeat split; lia.
  - rewrite (Heq E), (Heq' (eq_sym E)). repeat split; lia.
  - rewrite (Hgt ltac:(lia)), (Hlt' E). repeat split; lia.
Qed.

(** ** The sort and the walk, lines 313 to 348 *)

Lemma check_pHead_strict l :
  StronglySorted Z.lt (map key l) ->
  ((2 <= length l)%nat -> Forall (fun k => k <> NULL) (map key l)) ->
  check_pHead l = None.
Proof.
  induction l as [|a [|b l] IH]; intros Hs Hz; [done|done|].
  rewrite check_pHead_cons.
  assert (Forall (fun k => k <> NULL) (map key (a :: b :: l))) as Hnz
    by (apply Hz; simpl; lia).
  apply Forall_cons in Hnz as [Ha Hnz]. pose proof Hnz as Hnz'.
  apply Forall_cons in Hnz' as [Hb _].
  simpl in Hs. apply StronglySorted_cons in Hs as [Hall Hs].
  apply Forall_cons in Hall as [Hab _]. unfold key in *.
  destruct (Z.eqb_spec (pHead (entry a)) (pHead (entry b))); [lia|].
  destruct (Z.eqb_spec (pHead (entry a)) NULL); [done|].
  destruct (Z.eqb_spec (pHead (entry b)) NULL); [done|].
  apply IH; [exact Hs|]. intros _. exact Hnz.
Qed.

Lemma sorted_distinct_keys l :
  Sorted (fun a b => compare_hook a b <= 0) l ->
  NoDup (map key l) -> StronglySorted Z.lt (map key l).
Proof.
  intros Hs Hnodup. apply Sorted_StronglySorted; [intros ???; lia|].
  induction Hs as [|a l Hl IH Hhd]; [constructor|].
  simpl in Hnodup. apply NoDup_cons in Hnodup as [Hnotin Hnodup].
  constructor; [by apply IH|].
  destruct Hhd as [|b l Hab]; constructor.
  apply compare_hook_le in Hab.
  assert (key a <> key b); [|unfold key in *; lia].
  intros E. apply Hnotin. simpl. rewrite E. left.
Qed.

Section SortAndWalk.
Context `{Qsort}.

Lemma keys_sort_item it : keys (sort_item it) ≡ₚ keys it.
Proof.
  unfold keys. rewrite records_sort_item.
  by rewrite (qsort_Permutation compare_hook (records it)).
Qed.

(** X2.  After the qsort of an item the walk of lines 321 to 348 lets the
    process live exactly when no two of the item's records have the same
    pHead and, for an item of two records or more, none has a NULL pHead.
    An item with one record passes whatever its pHead: the walk compares
    neighbours only. *)
Theorem walk_passes_iff (it : desktop_hook_item) :
  check_pHead (records (sort_item it)) = None
  <-> NoDup (keys it)
      /\ ((2 <= length (records it))%nat ->
          Forall (fun k => k <> NULL) (keys it)).
Proof.
  assert (length (records (sort_item it)) = length (records it)) as Hlen.
  { rewrite records_sort_item.
    apply Permutation_length, qsort_Permutation. }
  split.
  - intros Hcheck. destruct (sort_item_passes it Hcheck) as [Hs Hz]. split.
    + rewrite <- keys_sort_item. by apply strongly_sorted_lt_NoDup.
    + intros H2. rewrite <- keys_sort_item. by apply Hz.
  - intros [Hnodup Hz]. apply check_pHead_strict.
    + apply sorted_distinct_keys; [apply records_sorted|].
      fold (keys (sort_item it)). by rewrite keys_sort_item.
    + rewrite Hlen. intros H2. fold (keys (sort_item it)).
      rewrite keys_sort_item. by apply Hz.
Qed.

End SortAndWalk.

(** X3.  Whenever the walk lets the process live, the sorted item is the
    same whichever qsort did the sort: the order in which a qsort leaves
    records of the same pHead never shows. *)
Theorem sort_item_any_qsort (Q1 Q2 : Qsort) (it : desktop_hook_item) :
  check_pHead (records (@sort_item Q1 it)) = None ->
  @sort_item Q1 it = @sort_item Q2 it.
Proof.
  intros Hcheck1.
  assert (check_pHead (records (@sort_item Q2 it)) = None) as Hcheck2.
  { apply (@walk_passes_iff Q2). by apply (@walk_passes_iff Q1). }
  assert (forall Q : Qsort, check_pHead (records (@sort_item Q it)) = None ->
            StronglySorted (fun a b => key a < key b)
              (@qsort Q compare_hook (records it))) as Hstrict.
  { intros Q Hcheck. destruct (@sort_item_passes Q it Hcheck) as [Hs _].
    unfold keys in Hs. rewrite (@records_sort_item Q) in Hs.
    revert Hs. generalize (@qsort Q compare_hook (records it)).
    induction l as [|a l IH]; simpl; intros Hs; [constructor|].
    apply StronglySorted_cons in Hs as [Hall Hs].
    constructor; [by apply IH|]. by rewrite Forall_map in Hall. }
  assert (@qsort Q1 compare_hook (records it)
          = @qsort Q2 compare_hook (records it)) as Heq.
  { apply (StronglySorted_unique_strong (fun a b => key a < key b)).
    - intros x1 x2 _ _ ??. lia.
    - by apply Hstrict.
    - by apply Hstrict.
    - by rewrite !qsort_Permutation. }
  unfold sort_item. by rewrite Heq.
Qed.

Lemma sort_item_any_qsort_witness :
  check_pHead (records (@sort_item merge_qsort item_A)) = None
  /\ @sort_item merge_qsort item_A = @sort_item merge_qsort_backwards item_A.
Proof.
  split; [reflexivity|].
  apply (sort_item_any_qsort merge_qsort merge_qsort_backwards item_A).
  reflexivity.
Defined.

(** ** The two loops over store->head in init_desktop_hook_store *)

Section TheSortLoop.
Context `{Qsort}.

(** X4.  The loop of lines 310 to 349, started on a store with a head
    item, only ever works on that item: when the walk over the sorted head
    item finds a fault the process ends with the head item sorted and the
    other items as they were; when it finds none the loop sorts and walks
    the head item again, for ever; so the loop never comes to its end. *)
Theorem sort_loop_stays_on_the_head (s : desktop_hook_list)
    (it : desktop_hook_item) (rest : list desktop_hook_item) :
  head s = it :: rest ->
  (forall why, check_pHead (records (sort_item it)) = Some why ->
     forall fuel,
       sort_hooks (S fuel) s (head_ptr s)
       = Exit why (set_head (sort_item it :: rest) s))
  /\ (check_pHead (records (sort_item it)) = None ->
      forall fuel, sort_hooks fuel s (head_ptr s) = OutOfFuel)
  /\ (forall fuel a s', sort_hooks fuel s (head_ptr s) <> Ret a s').
Proof.
  intros Hs. split; [|split].
  - intros why Hwhy fuel. unfold head_ptr. rewrite Hs.
    rewrite (sort_hooks_step fuel s 0 it) by by rewrite Hs.
    by rewrite Hwhy, Hs.
  - intros Hcheck. by apply (sort_hooks_spins s it rest).
  - intros fuel a s' Hret. apply sort_hooks_returns in Hret as [Hnone _].
    unfold head_ptr in Hnone. by rewrite Hs in Hnone.
Qed.

End TheSortLoop.

Lemma sort_loop_stays_on_the_head_witness :
  head store_A = [item_A]
  /\ forall fuel, @sort_hooks merge_qsort fuel store_A (head_ptr store_A)
                  = OutOfFuel.
Proof.
  split; [reflexivity|].
  apply (@sort_loop_stays_on_the_head merge_qsort store_A item_A []).
  - reflexivity.
  - reflexivity.
Defined.

Section TheSearch.
Variable G : global.

(** X5.  The search of lines 272 to 278, started on an item whose desktop
    is known, answers that item when the heap of its desktop holds the
    address, and otherwise never ends: it does not go on to the next
    item.  Started on NULL it answers NULL.  It never answers another
    item than the one it was started on, and never writes the store. *)
Theorem search_stays_on_its_item (s : desktop_hook_list) (e : HANDLEENTRY)
    (n : nat) (it : desktop_hook_item) (d : desktop_item) :
  head s !! n = Some it ->
  desktop_at (desktops_head G) (desktop it) = Some d ->
  (on_desktop d e = true ->
   forall fuel, find_desktop G (S fuel) s e (Some n) = Ret (Some n) s)
  /\ (on_desktop d e = false ->
      forall fuel, find_desktop G fuel s e (Some n) = OutOfFuel)
  /\ (forall fuel, find_desktop G (S fuel) s e None = Ret None s)
  /\ (forall fuel item p s',
        find_desktop G fuel s e item = Ret p s' -> p = item /\ s' = s).
Proof.
  intros Hit Hd. split; [|split; [|split]].
  - intros Hon fuel. by apply (find_desktop_found G s e n it d).
  - intros Hoff. by apply (find_desktop_spins G s e n it d).
  - done.
  - intros fuel item p s' Hret.
    pose proof (find_desktop_leaves G fuel s e item) as Hl.
    rewrite Hret in Hl. by destruct Hl.
Qed.

End TheSearch.

Lemma search_stays_on_its_item_witness :
  head store_two_items !! 1%nat = Some (new_item 0x600)
  /\ on_desktop desk_Winlogon (hook_entry 0x30400) = true
  /\ forall fuel,
       find_desktop G_two_desktops fuel store_two_items (hook_entry 0x30400)
         (Some 0%nat)
       = OutOfFuel.
Proof.
  split; [reflexivity|]. split; [reflexivity|].
  apply (search_stays_on_its_item G_two_desktops store_two_items
           (hook_entry 0x30400) 0 (new_item 0x500) desk_Default).
  - reflexivity.
  - reflexivity.
  - reflexivity.
Defined.

(** ** The scan of the handle table, lines 260 to 306 *)

Lemma only_head_written_refl s : only_head_written s s.
Proof. by repeat split. Qed.

Lemma only_head_written_trans s1 s2 s3 :
  only_head_written s1 s2 -> only_head_written s2 s3 ->
  only_head_written s1 s3.
Proof.
  intros (?&?&?&?&?&?) (?&?&?&?&?&?). repeat split; congruence.
Qed.

Section TheScan.
Context `{Platform}.
Variable G : global.
Variable os : system.

Lemma record_hook_head_written s e :
  leaves (only_head_written s) (record_hook G os s 0 e).
Proof.
  unfold record_hook. destruct (head s) as [|it rest] eqn:Hs; [done|].
  cbn [lookup list_lookup].
  destruct (desktop_at (desktops_head G) (desktop it)) as [d|]; [|done].
  destruct (_ <=? _)%nat; [done|]. cbv zeta.
  match goal with |- context [if ?c then _ else _] => destruct c end;
    cbn [leaves]; unfold only_head_written; rewrite Hs; simpl;
    by rewrite length_insert.
Qed.

(** X6.  Whatever the handle table holds, and whether the scan comes to
    its end or ends the process, it has written to no item but the first:
    every other item of the store is as it was, and so are the store's
    time stamp and tail and the desktop, hook_max and array length of the
    first item. *)
Theorem scan_writes_only_the_head_item (fuel : nat)
    (entries : list HANDLEENTRY) (s : desktop_hook_list) :
  leaves (only_head_written s) (record_hooks G os fuel entries s).
Proof.
  revert s. induction entries as [|e entries IH]; intros s; simpl.
  { apply only_head_written_refl. }
  destruct (negb _); [apply IH|].
  pose proof (find_desktop_leaves G fuel s e (head_ptr s)) as Hfind.
  destruct (find_desktop G fuel s e (head_ptr s)) as [p s'| | |];
    simpl; try done.
  destruct Hfind as [-> ->].
  unfold head_ptr. destruct (head s) as [|it rest] eqn:Hs; [apply IH|].
  apply leaves_bind; [apply record_hook_head_written|].
  intros u s' Hs'.
  pose proof (record_hook_head_written s e) as Hrec. rewrite Hs' in Hrec.
  eapply leaves_impl; [|apply IH].
  intros s''. by apply only_head_written_trans.
Qed.

(** X7.  When every HOOK of the handle table lies in the heap of the
    desktop of the first item, and the item has room for them below
    hook_max, the scan comes to its end: the first item has the records
    it had and then the record of every HOOK of the table, in the order
    of the table; entries that are no HOOK leave no record; the count has
    grown by their number; the other items are as they were. *)
Theorem scan_appends_in_table_order (fuel : nat) (entries : list HANDLEENTRY)
    (s : desktop_hook_list) (it : desktop_hook_item)
    (rest : list desktop_hook_item) (d : desktop_item) :
  head s = it :: rest ->
  desktop_at (desktops_head G) (desktop it) = Some d ->
  Forall (fun e => bType e = TYPE_HOOK -> on_desktop d e = true) entries ->
  0 <= hook_count it ->
  hook_count it + Z.of_nat (length (hooks_of entries)) < hook_max it ->
  hook_max it <= Z.of_nat (length (hook_array it)) ->
  hook_max it < 2 ^ 32 ->
  exists it',
    record_hooks G os (S fuel) entries s = Ret tt (set_head (it' :: rest) s)
    /\ records it' = records it ++ map (copy_hook os d) (hooks_of entries)
    /\ hook_count it' = hook_count it + Z.of_nat (length (hooks_of entries))
    /\ desktop it' = desktop it /\ hook_max it' = hook_max it
    /\ length (hook_array it') = length (hook_array it).
Proof.
  intros Hs Hd Hon Hc Hroom Hlen Hmax.
  destruct (record_hooks_head G os fuel entries s it rest d)
    as (it' & Hret & Hdesk & Hmax' & Hlen' & Hcount & Hrec); try done.
  by exists it'.
Qed.

(** X8.  On a store that is reused, the soft reset followed by the scan
    leaves in the first item the records of the HOOKs of this handle
    table and nothing else: the records and the count of the refresh
    before do not show, whatever they were. *)
Theorem reset_then_scan (fuel : nat) (s : desktop_hook_list)
    (it0 : desktop_hook_item) (rest : list desktop_hook_item)
    (d : desktop_item) :
  head s = it0 :: rest ->
  desktop_at (desktops_head G) (desktop it0) = Some d ->
  Forall (fun e => bType e = TYPE_HOOK -> on_desktop d e = true) (aheList G) ->
  Z.of_nat (length (hooks_of (aheList G))) < hook_max it0 ->
  hook_max it0 <= Z.of_nat (length (hook_array it0)) ->
  hook_max it0 < 2 ^ 32 ->
  exists it',
    (do (_, store) <- first_phase G s;
     record_hooks G os (S fuel) (aheList G) store)
    = Ret tt (set_head (it' :: map (set_hook_count 0) rest) s)
    /\ records it' = map (copy_hook os d) (hooks_of (aheList G))
    /\ hook_count it' = Z.of_nat (length (hooks_of (aheList G))).
Proof.
  intros Hs Hd Hon Hroom Hlen Hmax.
  unfold first_phase. rewrite Hs. cbn [bind].
  destruct (record_hooks_head G os fuel (aheList G) (soft_reset s)
              (set_hook_count 0 it0) (map (set_hook_count 0) rest) d)
    as (it' & Hret & _ & _ & _ & Hcount & Hrec);
    [unfold soft_reset; simpl; by rewrite Hs|done|done|simpl; lia..|].
  exists it'. split; [exact Hret|]. split; [by rewrite Hrec|].
  rewrite Hcount. simpl. lia.
Qed.

End TheScan.

Lemma scan_appends_in_table_order_witness :
  exists it',
    @record_hooks win32_x86 G_two_hooks os_main 1 (aheList G_two_hooks)
      store_Default
    = Ret tt (set_head [it'] store_Default)
    /\ records it'
       = [@copy_hook win32_x86 os_main desk_Default (hook_entry 0x10800);
          @copy_hook win32_x86 os_main desk_Default (hook_entry 0x10400)].
Proof.
  destruct (@scan_appends_in_table_order win32_x86 G_two_hooks os_main 0
              (aheList G_two_hooks) store_Default (new_item 0x500) []
              desk_Default)
    as (it' & Hret & Hrec & _).
  - reflexivity.
  - reflexivity.
  - repeat constructor.
  - cbv [hook_count new_item]. lia.
  - vm_compute. reflexivity.
  - vm_compute. congruence.
  - vm_compute. reflexivity.
  - exists it'. split; [exact Hret|]. rewrite Hrec. reflexivity.
Defined.

Lemma reset_then_scan_witness :
  records item_A = [hook_at 0x11000 4; hook_at 0x12000 0]
  /\ exists it',
       (do (_, store) <- first_phase G_two_hooks store_A;
        @record_hooks win32_x86 G_two_hooks os_main 1 (aheList G_two_hooks)
          store)
       = Ret tt (set_head [it'] store_A)
       /\ records it'
          = [@copy_hook win32_x86 os_main desk_Default (hook_entry 0x10800);
             @copy_hook win32_x86 os_main desk_Default (hook_entry 0x10400)].
Proof.
  split; [reflexivity|].
  destruct (@reset_then_scan win32_x86 G_two_hooks os_main 0 store_A item_A []
              desk_Default)
    as (it' & Hret & Hrec & _).
  - reflexivity.
  - reflexivity.
  - repeat constructor.
  - vm_compute. reflexivity.
  - vm_compute. congruence.
  - vm_compute. reflexivity.
  - exists it'. split; [exact Hret|]. rewrite Hrec. reflexivity.
Defined.

(** ** When init_desktop_hook_store returns *)

Lemma add_desktops_returns_iff l s r s' :
  add_desktops l s = Ret r s'
  <-> Forall (fun n => n.1 <> NULL) l /\ s' = s.
Proof.
  split.
  - revert s'. induction l as [|[addr d] l IH]; intros s'; simpl.
    { by intros [= _ <-]. }
    destruct (Z.eq_dec addr NULL) as [->|Hne].
    + unfold add_desktop_hook_item, FAIL_IF. simpl. done.
    + destruct (add_desktop_hook_item_returns s addr Hne) as [p ->]. simpl.
      intros Hret. destruct (IH _ Hret) as [Hall ->]. split; [|done].
      by constructor.
  - intros [Hall ->]. rewrite add_desktops_returns by done. by destruct r.
Qed.

Section Returns.
Context `{Platform} `{Qsort}.
Variable G : global.
Variable os : system.

(** X9.  init_desktop_hook_store returns exactly when no FAIL_IF fires,
    the store has no item, and no node of the desktop store is at NULL
    (and there is fuel for the empty loops); it then returns TRUE and has
    written init_time and nothing else.  So it never returns on a store
    that has an item, and what a store without items gets does not depend
    on the handle table. *)
Theorem init_returns_exactly_when (fuel : nat) (parent : option snapshot)
    (r : Z) (m : option snapshot) :
  init_desktop_hook_store G os fuel parent = Ret r m
  <-> exists p,
        parent = Some p
        /\ preconditions G os parent = true
        /\ head (desktop_hooks p) = []
        /\ Forall (fun n => n.1 <> NULL) (desktops_head G)
        /\ fuel <> 0%nat
        /\ r = 1
        /\ m = Some (set_desktop_hooks p
                       (set_init_time (GetSystemTimeAsFileTime os)
                          (set_init_time 0 (desktop_hooks p)))).
Proof.
  rewrite init_returns. split.
  - intros (p & -> & Hpre & Hr & Hhead & -> & ->).
    apply refresh_store_returns in Hr as (_ & Hfuel & Hadd & _ & _).
    apply add_desktops_returns_iff in Hadd as [Hall _].
    exists p. by repeat split.
  - intros (p & -> & Hpre & Hhead & Hall & Hfuel & -> & ->).
    exists p. repeat split; try done.
    apply refresh_store_returns. repeat split; try done.
    by apply add_desktops_returns.
Qed.

End Returns.

(** ** The count of the first item during the scan *)

Section TheCount.
Context `{Platform}.
Variable G : global.
Variable os : system.

(** Lines 283 to 305 on the first item, with its count below hook_max:
    the count grows by one; the process lives when the new count is still
    below hook_max and is ended when it has reached hook_max. *)
Lemma record_hook_count s e it rest :
  head s = it :: rest ->
  0 <= hook_count it < hook_max it ->
  hook_max it < 2 ^ 32 ->
  match record_hook G os s 0 e with
  | Ret _ s' =>
      exists it', head s' = it' :: rest /\ hook_max it' = hook_max it
                  /\ hook_count it' = hook_count it + 1
                  /\ hook_count it' < hook_max it
  | Exit why s' =>
      exists it', head s' = it' :: rest /\ hook_max it' = hook_max it
                  /\ hook_count it' = hook_max it
                  /\ why = Too_many_HOOK_objects (hook_max it) (hook_max it)
  | _ => True
  end.
Proof.
  intros Hs Hc Hmax. unfold record_hook. rewrite Hs. cbn [lookup list_lookup].
  destruct (desktop_at (desktops_head G) (desktop it)) as [d|]; [|done].
  destruct (_ <=? _)%nat; [done|].
  cbv zeta. cbn [insert list_insert].
  assert (hook_count (appended it (copy_hook os d e)) = hook_count it + 1)
    as Hc1.
  { simpl. apply uint_incr_small. lia. }
  change (hook_max (appended it (copy_hook os d e))) with (hook_max it).
  rewrite Hc1.
  destruct (Z.geb_spec (hook_count it + 1) (hook_max it)) as [Hfull|Hfree].
  - exists (appended it (copy_hook os d e)).
    replace (hook_count it + 1) with (hook_max it) in * by lia.
    by repeat split.
  - exists (appended it (copy_hook os d e)). repeat split; (done || lia).
Qed.

(** X10.  During the scan of lines 260 to 306 the count of the first item
    never goes down and never goes past hook_max.  Started with the count
    below hook_max (as the soft reset leaves it), a scan that comes to its
    end leaves the count still below hook_max, and no more above the count
    it started with than the table has HOOK entries; a scan that ends the
    process does so with "Too many HOOK objects!" and with the count at
    hook_max exactly, and for no other reason.  The other items and
    hook_max stay as they were. *)
Theorem scan_keeps_count_below_hook_max (fuel : nat)
    (entries : list HANDLEENTRY) (s : desktop_hook_list)
    (it : desktop_hook_item) (rest : list desktop_hook_item) :
  head s = it :: rest ->
  0 <= hook_count it < hook_max it ->
  hook_max it < 2 ^ 32 ->
  match record_hooks G os fuel entries s with
  | Ret _ s' =>
      exists it', head s' = it' :: rest /\ hook_max it' = hook_max it
                  /\ hook_count it <= hook_count it' < hook_max it
                  /\ hook_count it'
                     <= hook_count it + Z.of_nat (length (hooks_of entries))
  | Exit why s' =>
      exists it', head s' = it' :: rest /\ hook_max it' = hook_max it
                  /\ hook_count it' = hook_max it
                  /\ why = Too_many_HOOK_objects (hook_max it) (hook_max it)
  | _ => True
  end.
Proof.
  revert s it. induction entries as [|e entries IH]; intros s it Hs Hc Hmax.
  { cbn [record_hooks]. exists it. repeat split; (done || lia). }
  cbn [record_hooks]. unfold hooks_of in *.
  destruct (Z.eqb_spec (bType e) TYPE_HOOK) as [Hty|Hty]; simpl negb; cbv iota.
  2:{ rewrite filter_cons_False by done. by apply IH. }
  rewrite filter_cons_True by done.
  pose proof (find_desktop_leaves G fuel s e (head_ptr s)) as Hfind.
  destruct (find_desktop G fuel s e (head_ptr s)) as [item s1| | |];
    cbn [bind]; try done.
  destruct Hfind as [-> ->]. unfold head_ptr. rewrite Hs.
  pose proof (record_hook_count s e it rest Hs Hc Hmax) as Hrec.
  destruct (record_hook G os s 0 e) as [u s1|why s1| |]; cbn [bind]; try done.
  destruct Hrec as (it1 & Hs1 & Hm1 & Hc1 & Hlt).
  specialize (IH s1 it1 Hs1).
  rewrite Hm1, Hc1 in IH. specialize (IH ltac:(lia) Hmax).
  destruct (record_hooks G os fuel entries s1) as [u' s2|why s2| |];
    try done.
  destruct IH as (it' & Hs2 & Hm2 & Hc2 & Hn).
  exists it'. simpl length. repeat split; (done || lia).
Qed.

End TheCount.

Lemma scan_keeps_count_below_hook_max_witness :
  0 <= hook_count item_A < hook_max item_A
  /\ match @record_hooks win32_x86 G_two_desktops os_main 1
             [hook_entry 0x10800] store_A with
     | Ret _ s' =>
         exists it', head s' = [it'] /\ hook_max it' = hook_max item_A
                     /\ hook_count item_A <= hook_count it' < hook_max item_A
                     /\ hook_count it'
                        <= hook_count item_A
                           + Z.of_nat (length (@hooks_of win32_x86
                                                 [hook_entry 0x10800]))
     | Exit why s' =>
         exists it', head s' = [it'] /\ hook_max it' = hook_max item_A
                     /\ hook_count it' = hook_max item_A
                     /\ why = Too_many_HOOK_objects (hook_max item_A)
                                (hook_max item_A)
     | _ => True
     end.
Proof.
  split; [by vm_compute|].
  apply (@scan_keeps_count_below_hook_max win32_x86 G_two_desktops os_main 1
           [hook_entry 0x10800] store_A item_A []).
  - reflexivity.
  - by vm_compute.
  - reflexivity.
Defined.

(** ** free_desktop_hook_store and create_desktop_hook_store *)

Lemma free_items_length l n0 : length (free_items l n0) = (2 * length l)%nat.
Proof.
  revert n0. induction l as [|it l IH]; intros n0; simpl; [done|].
  rewrite IH. lia.
Qed.

Lemma free_items_elem l n0 b :
  b ∈ free_items l n0
  <-> exists k, (n0 <= k < n0 + length l)%nat
                /\ (b = hook_block k \/ b = item_block k).
Proof.
  revert n0. induction l as [|it l IH]; intros n0; simpl.
  - split; [by intros ?%elem_of_nil|]. intros (k & ? & _). lia.
  - rewrite !elem_of_cons, IH. split.
    + intros [->|[->|(k & Hk & Hb)]].
      * exists n0. split; [lia|by left].
      * exists n0. split; [lia|by right].
      * exists k. split; [lia|done].
    + intros (k & Hk & Hb). destruct (decide (k = n0)) as [->|Hne].
      * destruct Hb as [->| ->]; auto.
      * right. right. exists k. split; [lia|done].
Qed.

Lemma free_items_NoDup l n0 : NoDup (free_items l n0).
Proof.
  revert n0. induction l as [|it l IH]; intros n0; simpl; [constructor|].
  constructor; [|constructor; [|apply IH]].
  - rewrite elem_of_cons, free_items_elem.
    intros [?|(k & Hk & [[= ->]|?])]; [done|lia|done].
  - rewrite free_items_elem. intros (k & Hk & [?|[= ->]]); [done|lia].
Qed.

Lemma free_items_lookup l n0 i :
  (i < length l)%nat ->
  free_items l n0 !! (2 * i)%nat = Some (hook_block (n0 + i))
  /\ free_items l n0 !! (2 * i + 1)%nat = Some (item_block (n0 + i)).
Proof.
  revert n0 i. induction l as [|it l IH]; intros n0 i Hi; [simpl in Hi; lia|].
  change (free_items (it :: l) n0)
    with (hook_block n0 :: item_block n0 :: free_items l (S n0)).
  destruct i as [|i].
  - rewrite Nat.add_0_r. split; reflexivity.
  - replace (2 * S i)%nat with (S (S (2 * i))) by lia.
    replace (n0 + S i)%nat with (S n0 + i)%nat by lia.
    change (S (S (2 * i)) + 1)%nat with (S (S (2 * i + 1))).
    rewrite !lookup_cons. apply IH. simpl in Hi. lia.
Qed.

(** X11.  free_desktop_hook_store on a store frees, for every item of the
    list in turn, the array of the item and then the item, and the store
    last; no block is freed twice and nothing else is freed; and the
    pointer it was called through is NULL afterwards. *)
Theorem free_desktop_hook_store_frees_once (s : desktop_hook_list) :
  exists freed,
    free_desktop_hook_store (Some (Some s))
    = (Some None, freed ++ [list_block])
    /\ NoDup (freed ++ [list_block])
    /\ length freed = (2 * length (head s))%nat
    /\ (forall n, (n < length (head s))%nat ->
          freed !! (2 * n)%nat = Some (hook_block n)
          /\ freed !! (2 * n + 1)%nat = Some (item_block n))
    /\ (forall b, b ∈ freed ->
          exists n, (n < length (head s))%nat
                    /\ (b = hook_block n \/ b = item_block n)).
Proof.
  exists (free_items (head s) 0). split; [|split; [|split; [|split]]].
  - unfold free_desktop_hook_store. by destruct (head s).
  - apply NoDup_app. split; [apply free_items_NoDup|].
    split; [|repeat constructor; by intros ?%elem_of_nil].
    intros b Hb Hin. apply free_items_elem in Hb as (k & _ & Hk).
    apply list_elem_of_singleton in Hin. destruct Hk; congruence.
  - apply free_items_length.
  - intros n Hn. by apply (free_items_lookup (head s) 0 n).
  - intros b Hb. apply free_items_elem in Hb as (k & Hk & Hb).
    exists k. split; [lia|done].
Qed.

(** X12.  A second call of free_desktop_hook_store through the same
    pointer frees nothing and leaves the pointer as it is, whatever the
    first call was made on; a store just created is freed as one block;
    after the free, create_desktop_hook_store makes an empty store through
    the same pointer again; and through a pointer that already points to
    a store it ends the process and leaves that store alone. *)
Theorem free_then_free_then_create
    (in_ : option (option desktop_hook_list)) (s : desktop_hook_list) :
  free_desktop_hook_store (free_desktop_hook_store in_).1
  = ((free_desktop_hook_store in_).1, [])
  /\ (in_ <> None ->
      create_desktop_hook_store (free_desktop_hook_store in_).1
      = Ret tt (Some (Some created_store)))
  /\ free_desktop_hook_store (Some (Some created_store))
     = (Some None, [list_block])
  /\ create_desktop_hook_store (Some (Some s))
     = Exit (failed "*out") (Some (Some s)).
Proof.
  split; [|split; [|split]]; try reflexivity.
  - by destruct in_ as [[s'|]|].
  - intros Hin. by destruct in_ as [[s'|]|].
Qed.

(** ** The print functions *)

Lemma nesting_app (open a b : list output) :
  nesting open (a ++ b)
  = match nesting open a with
    | Some open' => nesting open' b
    | None => None
    end.
Proof.
  revert open. induction a as [|e a IH]; intros open; [done|].
  destruct e; simpl; try apply IH.
  - destruct open as [|[] open]; try done. by destruct (String.eqb _ _).
  - destruct open as [|[] open]; try done. by destruct (String.eqb _ _).
Qed.

Lemma closed_nil : closed [].
Proof. by intros open. Qed.

Lemma closed_app a b : closed a -> closed b -> closed (a ++ b).
Proof. intros Ha Hb open. by rewrite nesting_app, Ha, Hb. Qed.

Lemma closed_SEP name a :
  closed a -> closed (PRINT_SEP_BEGIN name :: a ++ [PRINT_SEP_END name]).
Proof.
  intros Ha open. simpl. rewrite nesting_app, Ha. simpl.
  by rewrite String.eqb_refl.
Qed.

Lemma closed_DBLSEP name a :
  closed a -> closed (PRINT_DBLSEP_BEGIN name :: a ++ [PRINT_DBLSEP_END name]).
Proof.
  intros Ha open. simpl. rewrite nesting_app, Ha. simpl.
  by rewrite String.eqb_refl.
Qed.

Section PrintProperties.
Context `{Platform}.
Variable G : global.
Variable read_HEAD : ptr -> HEAD.

Lemma print_HANDLEENTRY_closed entry' : closed (print_HANDLEENTRY read_HEAD entry').
Proof.
  destruct entry' as [e|]; [|apply closed_nil]. intros open.
  unfold print_HANDLEENTRY.
  by destruct (negb (pHead e =? NULL)), (bType e =? TYPE_HOOK).
Qed.

Lemma print_HOOK_closed object' : closed (print_HOOK object').
Proof.
  destruct object' as [o|]; [|apply closed_nil]. by intros open.
Qed.

Lemma print_hook_closed hook' : closed (print_hook read_HEAD hook').
Proof.
  destruct hook' as [x|]; [|apply closed_nil].
  unfold print_hook.
  change ([PRINT_SEP_BEGIN "hook struct"] ++ ?a ++ ?b ++ ?c)
    with (PRINT_SEP_BEGIN "hook struct" :: a ++ b ++ c).
  set (he := print_HANDLEENTRY read_HEAD (Some (entry x))).
  set (ho := print_HOOK (Some (object x))).
  replace (he ++ ho ++ [print_gui (owner x); print_gui (origin x);
                        print_gui (target x); PRINT_SEP_END "hook struct"])
    with ((he ++ ho ++ [print_gui (owner x); print_gui (origin x);
                        print_gui (target x)]) ++ [PRINT_SEP_END "hook struct"])
    by (by rewrite <- !app_assoc).
  apply closed_SEP. apply closed_app; [apply print_HANDLEENTRY_closed|].
  apply closed_app; [apply print_HOOK_closed|]. by intros open.
Qed.

Lemma print_hooks_replicate hook' todo :
  print_hooks read_HEAD hook' todo
  = concat (replicate todo (print_hook read_HEAD hook')).
Proof. induction todo as [|todo IH]; simpl; [done|]. by rewrite IH. Qed.

Lemma print_hooks_closed hook' todo : closed (print_hooks read_HEAD hook' todo).
Proof.
  induction todo as [|todo IH]; [apply closed_nil|].
  simpl. apply closed_app; [apply print_hook_closed|apply IH].
Qed.

Lemma print_desktop_hook_item_closed item out :
  print_desktop_hook_item G read_HEAD item = Ret out tt -> closed out.
Proof.
  destruct item as [it|]; [|intros [= <-]; apply closed_nil].
  unfold print_desktop_hook_item.
  destruct (print_desktop_name G it) as [name|] eqn:Hname; [|done].
  destruct (print_item_hooks read_HEAD it) as [hooks|] eqn:Hhooks; [|done].
  assert (Hn : closed name).
  { unfold print_desktop_name in Hname.
    destruct (negb (desktop it =? NULL)).
    - destruct (desktop_at _ _); [|done]. injection Hname as <-. by intros open.
    - injection Hname as <-. by intros open. }
  assert (Hh : closed hooks).
  { unfold print_item_hooks in Hhooks.
    destruct (hook_count it <=? 0); [injection Hhooks as <-; apply closed_nil|].
    destruct (2 ^ 31 - 1 <? hook_count it); [done|].
    destruct (hook_array it !! 0%nat); [|done].
    injection Hhooks as <-. apply print_hooks_closed. }
  intros [= <-] open.
  cbn [app nesting]. rewrite nesting_app, Hn. cbn [app nesting].
  by rewrite nesting_app, Hh.
Qed.

Lemma print_items_closed l n out :
  print_items G read_HEAD l n = Ret out tt -> closed out.
Proof.
  revert n out. induction l as [|it l IH]; intros n out; cbn [print_items].
  - intros [= <-]. apply closed_nil.
  - destruct (print_desktop_hook_item G read_HEAD (Some it))
      as [item []| | |] eqn:Hitem; try done.
    cbn [bind].
    destruct (print_items G read_HEAD l (S n)) as [items []| | |] eqn:Hl;
      try done.
    cbn [bind]. intros [= <-].
    apply (closed_app [_]); [by intros open|].
    apply closed_app; [by eapply print_desktop_hook_item_closed|by eapply IH].
Qed.

(** X13.  print_desktop_hook_item prints, for an item with hooks, the
    first element of the array of the item once for every hook counted,
    and no other element: the argument of print_hook in the loop is the
    array, not its element [i].  Two items of the same desktop, hook_max
    and hook_count whose arrays start with the same element are printed
    alike, whatever the rest of their arrays holds. *)
Theorem print_desktop_hook_item_first_hook
    (it : desktop_hook_item) (x : hook) (name : list output) :
  hook_array it !! 0%nat = Some x ->
  0 < hook_count it <= 2 ^ 31 - 1 ->
  print_desktop_name G it = Some name ->
  print_desktop_hook_item G read_HEAD (Some it)
  = Ret ([PRINT_SEP_BEGIN "Desktop Hook Item"]
         ++ name
         ++ [printf "item->hook_max: %u\n" [number (hook_max it)];
             printf "item->hook_count: %u\n" [number (hook_count it)]]
         ++ concat (replicate (Z.to_nat (hook_count it))
                              (print_hook read_HEAD (Some x)))
         ++ [PRINT_SEP_END "Desktop Hook Item"]) tt
  /\ forall rest, print_desktop_hook_item G read_HEAD
                    (Some (set_hook_array (x :: rest) it))
                  = print_desktop_hook_item G read_HEAD (Some it).
Proof.
  intros Hx Hcount Hname.
  assert (Hhooks : forall it', hook_array it' !! 0%nat = Some x ->
            hook_count it' = hook_count it ->
            print_item_hooks read_HEAD it'
            = Some (concat (replicate (Z.to_nat (hook_count it))
                                      (print_hook read_HEAD (Some x))))).
  { intros it' Hx' Hc'. unfold print_item_hooks. rewrite Hc', Hx'.
    destruct (Z.leb_spec (hook_count it) 0); [lia|].
    destruct (Z.ltb_spec (2 ^ 31 - 1) (hook_count it)); [lia|].
    by rewrite print_hooks_replicate. }
  split.
  - unfold print_desktop_hook_item. by rewrite Hname, (Hhooks it Hx eq_refl).
  - intros rest. unfold print_desktop_hook_item.
    change (print_desktop_name G (set_hook_array (x :: rest) it))
      with (print_desktop_name G it).
    rewrite Hname, (Hhooks it Hx eq_refl).
    by rewrite (Hhooks (set_hook_array (x :: rest) it) eq_refl eq_refl).
Qed.

(** X14.  What print_desktop_hook_store prints is well nested: every
    PRINT_SEP_BEGIN and PRINT_DBLSEP_BEGIN is closed by the PRINT_SEP_END
    or PRINT_DBLSEP_END of the same name, the innermost first, and no end
    stands without its begin; for every store, of any number of items and
    hooks, and for no store. *)
Theorem print_desktop_hook_store_nesting
    (store : option desktop_hook_list) (out : list output) :
  print_desktop_hook_store G read_HEAD store = Ret out tt ->
  nesting [] out = Some [].
Proof.
  destruct store as [s|]; [|by intros [= <-]].
  unfold print_desktop_hook_store.
  destruct (print_items G read_HEAD (head s) 0) as [items []| | |] eqn:Hitems;
    try done.
  cbn [bind]. intros [= <-].
  cbn [app nesting]. rewrite nesting_app.
  by rewrite (print_items_closed _ _ _ Hitems).
Qed.

End PrintProperties.

Lemma print_desktop_hook_item_first_hook_witness :
  let read_HEAD := fun _ : ptr => {| h := 0; cLockObj := 0 |} in
  exists x name,
    hook_array item_A !! 0%nat = Some x
    /\ 0 < hook_count item_A <= 2 ^ 31 - 1
    /\ print_desktop_name G_two_desktops item_A = Some name
    /\ @print_desktop_hook_item win32_x86 G_two_desktops read_HEAD (Some item_A)
       = Ret ([PRINT_SEP_BEGIN "Desktop Hook Item"]
              ++ name
              ++ [printf "item->hook_max: %u\n" [number (hook_max item_A)];
                  printf "item->hook_count: %u\n" [number (hook_count item_A)]]
              ++ concat (replicate (Z.to_nat (hook_count item_A))
                                   (@print_hook win32_x86 read_HEAD (Some x)))
              ++ [PRINT_SEP_END "Desktop Hook Item"]) tt.
Proof.
  intros read_HEAD. eexists _, _.
  split; [reflexivity|]. split; [by vm_compute|]. split; [reflexivity|].
  apply (@print_desktop_hook_item_first_hook win32_x86 G_two_desktops
           read_HEAD item_A).
  - reflexivity.
  - by vm_compute.
  - reflexivity.
Defined.

Lemma print_desktop_hook_store_nesting_witness :
  let read_HEAD := fun _ : ptr => {| h := 0; cLockObj := 0 |} in
  exists out,
    @print_desktop_hook_store win32_x86 G_two_desktops read_HEAD (Some store_A)
    = Ret out tt
    /\ nesting [] out = Some [].
Proof.
  intros read_HEAD. eexists. split; [reflexivity|].
  apply (@print_desktop_hook_store_nesting win32_x86 G_two_desktops read_HEAD
           (Some store_A)).
  reflexivity.
Defined.
